(** * Screen capture: the GDI and DX11 backends and the ScreenCapture facade

    A shallow embedding of [ScreenCapGDI.cpp], [ScreenCapDX11.cpp] and
    [ScreenCap.h].  The operating system (GDI, DXGI, Direct3D) is not part of
    the program: every native call the code makes is answered by an
    environment record that is passed to the operation, so every theorem
    quantifies over all the answers the system can give. *)

From Stdlib Require Import ZArith Lia Bool Strings.Byte.
From stdpp Require Import base option list.

Local Open Scope Z_scope.

(** ** Machine integers and handles *)

(** [unsigned] values are kept in [0, 2^32); an [int] stored into an
    [unsigned] is reduced modulo [2^32]. *)
Definition to_unsigned (z : Z) : Z := z mod 2 ^ 32.

(** An [unsigned] stored into an [int]. *)
Definition to_int (z : Z) : Z :=
  let u := z mod 2 ^ 32 in if u <? 2 ^ 31 then u else u - 2 ^ 32.

(** A non-null native handle or pointer; the null pointer is [None]. *)
Definition handle := positive.

Definition is_null (p : option handle) : bool :=
  match p with None => true | Some _ => false end.

(** [memcpy] out of the pixel memory: [n] bytes starting at byte offset [off]. *)
Definition mem_read (mem : list byte) (off n : Z) : list byte :=
  take (Z.to_nat n) (drop (Z.to_nat off) mem).

(** [memcpy] into the pixel memory at byte offset [off]. *)
Definition mem_write (mem : list byte) (off : Z) (data : list byte) : list byte :=
  list_inserts (Z.to_nat off) data mem.

(** ** ScreenCaptureGDI *)

Module GDI.

(** The members of [class ScreenCaptureGDI].  [dib_pixels] is not a member:
    it is the content of the DIB section memory that [m_dibBits] was set to
    point to by [CreateDIBSection]. *)
Record ScreenCaptureGDI := mkGDI {
  m_width : Z;
  m_height : Z;
  m_depth : Z;
  m_stride : Z;
  m_hdcMem : option handle;
  m_dibSection : option handle;
  m_dibOld : option handle;
  m_dibBits : option handle;
  dib_pixels : list byte
}.

(** A newly constructed object (the default member initialisers). *)
Definition fresh : ScreenCaptureGDI :=
  mkGDI 0 0 0 0 None None None None [].

(** What the system answers during one [Startup] call. *)
Record StartupEnv := mkStartupEnv {
  SM_CXSCREEN : Z;
  SM_CYSCREEN : Z;
  SM_CMONITORS : Z;
  SM_CXVIRTUALSCREEN : Z;
  SM_CYVIRTUALSCREEN : Z;
  CreateCompatibleDC : option handle;
  (** the returned HBITMAP and the pointer stored through [ppvBits] *)
  CreateDIBSection : option handle * option handle;
  (** the bytes of the newly created section *)
  dib_initial : list byte;
  SelectObject : option handle
}.

(** [while (m_stride % 4) ++m_stride;]  The remainder of [int] is the
    truncating one.  Three increments always suffice. *)
Fixpoint align_stride (fuel : nat) (stride : Z) : Z :=
  match fuel with
  | O => stride
  | S fuel' =>
      if Z.rem stride 4 =? 0 then stride
      else align_stride fuel' (to_int (stride + 1))
  end.

Definition Startup (c : ScreenCaptureGDI) (os : StartupEnv)
  : bool * ScreenCaptureGDI :=
  let multi := 1 <? SM_CMONITORS os in
  let width := to_unsigned (if multi then SM_CXVIRTUALSCREEN os else SM_CXSCREEN os) in
  let height := to_unsigned (if multi then SM_CYVIRTUALSCREEN os else SM_CYSCREEN os) in
  match CreateCompatibleDC os with
  | None =>
      (false,
       mkGDI width height (m_depth c) (m_stride c)
             None (m_dibSection c) (m_dibOld c) (m_dibBits c) (dib_pixels c))
  | Some hdc =>
      let '(section, bits) := CreateDIBSection os in
      if is_null section || is_null bits then
        (false,
         mkGDI width height (m_depth c) (m_stride c)
               None section (m_dibOld c) bits (dib_pixels c))
      else
        let biBitCount := 32 in
        let stride :=
          align_stride 3 (to_int (to_unsigned (width * biBitCount) / 8)) in
        (true,
         mkGDI width height biBitCount stride
               (Some hdc) section (SelectObject os) bits (dib_initial os))
  end.

Definition Shutdown (c : ScreenCaptureGDI) : ScreenCaptureGDI :=
  mkGDI 0 0 0 0 None None None (m_dibBits c)
        (if is_null (m_dibSection c) then dib_pixels c else []).

(** The scanline reordering loop of [CaptureFrame]: [n] iterations left,
    [scanline1] and [scanline2] are byte offsets from [m_dibBits]. *)
Fixpoint flip_scanlines (n : nat) (stride scanline1 scanline2 : Z)
                        (bits : list byte) : list byte :=
  match n with
  | O => bits
  | S n' =>
      let scanline := mem_read bits scanline1 stride in
      let bits := mem_write bits scanline1 (mem_read bits scanline2 stride) in
      let bits := mem_write bits scanline2 scanline in
      flip_scanlines n' stride (scanline1 + stride) (scanline2 - stride) bits
  end.

(** [BitBlt] is [Some img] when the blit wrote the image [img] into the
    section and [None] when it failed and wrote nothing; the code does not
    look at its return value. *)
Definition CaptureFrame (c : ScreenCaptureGDI) (BitBlt : option (list byte))
  : bool * ScreenCaptureGDI :=
  if is_null (m_hdcMem c) || (m_width c =? 0) then (false, c)
  else
    let blitted :=
      match BitBlt with Some img => img | None => dib_pixels c end in
    let scanline2 :=
      to_unsigned (to_unsigned (m_height c - 1) * to_unsigned (m_stride c)) in
    (true,
     mkGDI (m_width c) (m_height c) (m_depth c) (m_stride c)
           (m_hdcMem c) (m_dibSection c) (m_dibOld c) (m_dibBits c)
           (flip_scanlines (Z.to_nat (m_height c / 2)) (m_stride c)
                           0 scanline2 blitted)).

Definition GetFrameWidth (c : ScreenCaptureGDI) : Z := m_width c.
Definition GetFrameHeight (c : ScreenCaptureGDI) : Z := m_height c.
Definition GetFrameDepth (c : ScreenCaptureGDI) : Z := m_depth c.
Definition GetFrameStride (c : ScreenCaptureGDI) : Z := to_unsigned (m_stride c).
Definition GetFrameBuffer (c : ScreenCaptureGDI) : option handle := m_dibBits c.

(** The bytes [GetFrameBufferScanlinePtr(y)] points at: one stride of
    pixel memory from offset [m_stride * y]. *)
Definition scanline_at (mem : list byte) (stride y : Z) : list byte :=
  mem_read mem (stride * y) stride.

(** The calls a client can make, each with the system's answers. *)
Inductive call :=
| CallStartup (os : StartupEnv)
| CallCaptureFrame (BitBlt : option (list byte))
| CallShutdown.

Definition do_call (c : ScreenCaptureGDI) (k : call) : ScreenCaptureGDI :=
  match k with
  | CallStartup os => (Startup c os).2
  | CallCaptureFrame b => (CaptureFrame c b).2
  | CallShutdown => Shutdown c
  end.

(** The state after a sequence of calls on a new object. *)
Definition run (ks : list call) : ScreenCaptureGDI :=
  foldl do_call fresh ks.

(** [GetFrameBufferScanlinePtr(y)] and [GetFrameBufferPixelPtr(y, x)]:
    [None] is the null pointer and [Some off] the pointer [off] bytes past
    [m_dibBits].  The products are formed in [unsigned] arithmetic. *)
Definition GetFrameBufferScanlinePtr (c : ScreenCaptureGDI) (y : Z) : option Z :=
  if is_null (m_dibBits c) then None
  else Some (to_unsigned (to_unsigned (m_stride c) * y)).

Definition GetFrameBufferPixelPtr (c : ScreenCaptureGDI) (y x : Z) : option Z :=
  if is_null (m_dibBits c) then None
  else Some (to_unsigned (to_unsigned (m_stride c) * y)
             + to_unsigned (x * m_depth c) / 8).

End GDI.

(** ** ScreenCaptureDX11 *)

Module DX11.

(** Values of the [DXGI_FORMAT] enumeration (Windows SDK, [dxgiformat.h])
    that the code names, and one it does not. *)
Definition DXGI_FORMAT_R8G8B8A8_UNORM : Z := 28.
Definition DXGI_FORMAT_B8G8R8A8_UNORM : Z := 87.
Definition DXGI_FORMAT_B8G8R8X8_UNORM : Z := 88.
Definition DXGI_FORMAT_B8G8R8A8_TYPELESS : Z := 90.
Definition DXGI_FORMAT_B8G8R8A8_UNORM_SRGB : Z := 91.
Definition DXGI_FORMAT_B8G8R8X8_TYPELESS : Z := 92.
Definition DXGI_FORMAT_B8G8R8X8_UNORM_SRGB : Z := 93.

Definition IsFormat32bit (fmt : Z) : bool :=
  if negb (fmt =? DXGI_FORMAT_B8G8R8A8_UNORM) &&
     negb (fmt =? DXGI_FORMAT_B8G8R8X8_UNORM) &&
     negb (fmt =? DXGI_FORMAT_B8G8R8A8_TYPELESS) &&
     negb (fmt =? DXGI_FORMAT_B8G8R8A8_UNORM_SRGB) &&
     negb (fmt =? DXGI_FORMAT_B8G8R8X8_TYPELESS) &&
     negb (fmt =? DXGI_FORMAT_B8G8R8X8_UNORM_SRGB)
  then false
  else true.

Inductive D3D_DRIVER_TYPE :=
| D3D_DRIVER_TYPE_HARDWARE
| D3D_DRIVER_TYPE_WARP
| D3D_DRIVER_TYPE_REFERENCE.

Global Instance D3D_DRIVER_TYPE_eq_dec : EqDecision D3D_DRIVER_TYPE.
Proof. solve_decision. Defined.

(** The driver types [InitializeDevice] tries, in its order. *)
Definition drivers : list D3D_DRIVER_TYPE :=
  [D3D_DRIVER_TYPE_HARDWARE; D3D_DRIVER_TYPE_WARP; D3D_DRIVER_TYPE_REFERENCE].

(** The members of [class ScreenCaptureDX11]. *)
Record ScreenCaptureDX11 := mkDX11 {
  m_device : option handle;
  m_deviceContext : option handle;
  m_stagingTexture : option handle;
  m_outputDuplication : option handle;
  m_frameBuffer : list byte;
  m_frameWidth : Z;
  m_frameHeight : Z;
  m_frameDepth : Z;
  m_frameStride : Z
}.

Definition fresh : ScreenCaptureDX11 :=
  mkDX11 None None None None [] 0 0 0 0.

(** The native calls the class makes on its four member interfaces (the
    device, the device context, the output duplication and the staging
    texture), the calls that create them, and [Sleep].  Every operation
    returns the calls it made, in order.  [Call_QueryInterface_IDXGIDevice]
    is the [QueryInterface] on the device, [Call_GetDesc] the [GetDesc] of
    the output duplication, [Call_StagingTexture_GetDesc] the one of the
    staging texture.  Calls on the interfaces that are local to one function
    (the desktop resource and the acquired texture of a capture, the DXGI
    device, adapter and output of [StartOutputDuplication]) are not
    recorded; what they answer is part of the environment. *)
Inductive event :=
| Call_D3D11CreateDevice (driver : D3D_DRIVER_TYPE)
| Call_QueryInterface_IDXGIDevice
| Call_DuplicateOutput
| Call_AcquireNextFrame
| Call_ReleaseFrame
| Call_Sleep
| Call_GetDesc
| Call_CreateTexture2D
| Call_CopyResource
| Call_StagingTexture_GetDesc
| Call_Map
| Call_Unmap
| Release_stagingTexture
| Release_outputDuplication
| Release_device
| Release_deviceContext.

Global Instance event_eq_dec : EqDecision event.
Proof. solve_decision. Defined.

(** The answer of a COM call that returns an interface: whether the
    [HRESULT] is a success code, and the pointer it stored. *)
Record com_answer := mkCom { succeeded : bool; out_ptr : option handle }.

Record device_answer := mkDevice {
  dev_succeeded : bool;
  dev_device : option handle;
  dev_context : option handle
}.

(** What the system answers during one [Startup] call. *)
Record StartupEnv := mkStartupEnv {
  D3D11CreateDevice : D3D_DRIVER_TYPE → device_answer;
  QueryInterface_IDXGIDevice : bool;
  GetParent_IDXGIAdapter : bool;
  EnumOutputs : bool;
  QueryInterface_IDXGIOutput1 : bool;
  DuplicateOutput : com_answer
}.

(** The answer of one [IDXGIOutputDuplication::AcquireNextFrame] call. *)
Record frame_answer := mkFrame {
  acq_succeeded : bool;
  LastPresentTime : Z;
  acq_resource : option handle
}.

(** What the system answers during one [CaptureFrame] call.
    [AcquireNextFrame_answer k] answers the call of attempt [k]. *)
Record CaptureEnv := mkCaptureEnv {
  AcquireNextFrame_answer : nat → frame_answer;
  QueryInterface_Texture2D : com_answer;
  desc_Width : Z;
  desc_Height : Z;
  desc_Format : Z;
  CreateTexture2D : com_answer;
  Map_succeeded : bool;
  RowPitch : Z;
  pData : list byte
}.

Definition set_metadata (c : ScreenCaptureDX11) (w h d s : Z) : ScreenCaptureDX11 :=
  mkDX11 (m_device c) (m_deviceContext c) (m_stagingTexture c)
         (m_outputDuplication c) (m_frameBuffer c) w h d s.

Definition set_frameBuffer (c : ScreenCaptureDX11) (buf : list byte) : ScreenCaptureDX11 :=
  mkDX11 (m_device c) (m_deviceContext c) (m_stagingTexture c)
         (m_outputDuplication c) buf
         (m_frameWidth c) (m_frameHeight c) (m_frameDepth c) (m_frameStride c).

Definition set_device (c : ScreenCaptureDX11) (dev ctx : option handle) : ScreenCaptureDX11 :=
  mkDX11 dev ctx (m_stagingTexture c) (m_outputDuplication c) (m_frameBuffer c)
         (m_frameWidth c) (m_frameHeight c) (m_frameDepth c) (m_frameStride c).

Definition set_stagingTexture (c : ScreenCaptureDX11) (p : option handle) : ScreenCaptureDX11 :=
  mkDX11 (m_device c) (m_deviceContext c) p (m_outputDuplication c) (m_frameBuffer c)
         (m_frameWidth c) (m_frameHeight c) (m_frameDepth c) (m_frameStride c).

Definition set_outputDuplication (c : ScreenCaptureDX11) (p : option handle) : ScreenCaptureDX11 :=
  mkDX11 (m_device c) (m_deviceContext c) (m_stagingTexture c) p (m_frameBuffer c)
         (m_frameWidth c) (m_frameHeight c) (m_frameDepth c) (m_frameStride c).

(** [CComPtr::Release]: releases the interface if the pointer is not null. *)
Definition release (p : option handle) (e : event) : list event :=
  if is_null p then [] else [e].

(** The loop of [InitializeDevice] over the driver types still to try. *)
Fixpoint try_drivers (ds : list D3D_DRIVER_TYPE) (c : ScreenCaptureDX11)
                     (os : StartupEnv) : bool * ScreenCaptureDX11 * list event :=
  match ds with
  | [] => (false, c, [])
  | driver :: ds' =>
      let a := D3D11CreateDevice os driver in
      let c := set_device c (dev_device a) (dev_context a) in
      if dev_succeeded a && negb (is_null (m_device c))
                         && negb (is_null (m_deviceContext c))
      then (true, c, [Call_D3D11CreateDevice driver])
      else
        let released :=
          release (m_device c) Release_device ++
          release (m_deviceContext c) Release_deviceContext in
        let '(ok, c', tr) := try_drivers ds' (set_device c None None) os in
        (ok, c', Call_D3D11CreateDevice driver :: released ++ tr)
  end.

Definition InitializeDevice (c : ScreenCaptureDX11) (os : StartupEnv)
  : bool * ScreenCaptureDX11 * list event :=
  try_drivers drivers c os.

Definition StartOutputDuplication (c : ScreenCaptureDX11) (os : StartupEnv)
  : bool * ScreenCaptureDX11 * list event :=
  let tr := [Call_QueryInterface_IDXGIDevice] in
  if negb (QueryInterface_IDXGIDevice os) then (false, c, tr)
  else if negb (GetParent_IDXGIAdapter os) then (false, c, tr)
  else if negb (EnumOutputs os) then (false, c, tr)
  else if negb (QueryInterface_IDXGIOutput1 os) then (false, c, tr)
  else
    let a := DuplicateOutput os in
    let c := set_outputDuplication c (out_ptr a) in
    let tr := tr ++ [Call_DuplicateOutput] in
    if negb (succeeded a) then (false, c, tr)
    else if is_null (m_outputDuplication c) then (false, c, tr)
    else (true, c, tr).

Definition Startup (c : ScreenCaptureDX11) (os : StartupEnv)
  : bool * ScreenCaptureDX11 * list event :=
  let c := set_frameBuffer c [] in
  let c := set_metadata c 0 0 0 0 in
  let '(ok, c, tr1) := InitializeDevice c os in
  if negb ok then (false, c, tr1)
  else
    let '(ok, c, tr2) := StartOutputDuplication c os in
    if negb ok then (false, c, tr1 ++ tr2)
    else (true, c, tr1 ++ tr2).

Definition Shutdown (c : ScreenCaptureDX11) : ScreenCaptureDX11 * list event :=
  let tr1 := release (m_stagingTexture c) Release_stagingTexture in
  let c := set_stagingTexture c None in
  let tr2 := release (m_outputDuplication c) Release_outputDuplication in
  let c := set_outputDuplication c None in
  let tr3 := release (m_device c) Release_device in
  let c := set_device c None (m_deviceContext c) in
  let tr4 := release (m_deviceContext c) Release_deviceContext in
  let c := set_device c (m_device c) None in
  (set_frameBuffer c [], tr1 ++ tr2 ++ tr3 ++ tr4).

(** The retry loop of [AcquireNextFrame]: [left] iterations remain and
    [attempt] is the loop counter.  The result is the final [hr] (as
    SUCCEEDED), the final [desktopResource] and the calls made. *)
Fixpoint acquire_loop (left attempt : nat) (os : CaptureEnv)
                      (hr : bool) (desktopResource : option handle)
  : bool * option handle * list event :=
  match left with
  | O => (hr, desktopResource, [])
  | S left' =>
      let finfo := AcquireNextFrame_answer os attempt in
      let hr := acq_succeeded finfo in
      let desktopResource := acq_resource finfo in
      if hr && (LastPresentTime finfo =? 0) then
        let '(hr', res', tr) := acquire_loop left' (S attempt) os hr None in
        (hr', res', Call_AcquireNextFrame :: Call_ReleaseFrame :: Call_Sleep :: tr)
      else if hr && is_null desktopResource then
        let '(hr', res', tr) :=
          acquire_loop left' (S attempt) os hr desktopResource in
        (hr', res', Call_AcquireNextFrame :: Call_ReleaseFrame :: Call_Sleep :: tr)
      else (hr, desktopResource, [Call_AcquireNextFrame])
  end.

(** Returns the result, the pointer left in [acquiredDesktopImage] and the
    calls made. *)
Definition AcquireNextFrame (os : CaptureEnv)
  : bool * option handle * list event :=
  let '(hr, desktopResource, tr) := acquire_loop 4 0 os false None in
  if negb hr || is_null desktopResource then (false, None, tr)
  else
    let q := QueryInterface_Texture2D os in
    if negb (succeeded q) then (false, out_ptr q, tr)
    else (true, out_ptr q, tr).

Definition CreateStagingTexture (c : ScreenCaptureDX11) (os : CaptureEnv)
  : bool * ScreenCaptureDX11 * list event :=
  let a := CreateTexture2D os in
  let c := set_stagingTexture c (out_ptr a) in
  if negb (succeeded a) || is_null (m_stagingTexture c)
  then (false, c, [Call_CreateTexture2D])
  else (true, c, [Call_CreateTexture2D]).

Definition CopyStagingTextureToMemory (c : ScreenCaptureDX11)
    (pDeviceContext : option handle) (os : CaptureEnv)
  : bool * ScreenCaptureDX11 * list event :=
  if is_null pDeviceContext then (false, c, [])
  else if negb (Map_succeeded os)
  then (false, c, [Call_StagingTexture_GetDesc; Call_Map])
  else
    let width := to_unsigned (to_int (desc_Width os)) in
    let height := to_unsigned (to_int (desc_Height os)) in
    let stride := to_unsigned (RowPitch os) in
    let c := set_metadata c width height 32 stride in
    let size := Z.to_nat (to_unsigned (m_frameStride c * m_frameHeight c)) in
    let resized := resize size x00 (m_frameBuffer c) in
    let c := set_frameBuffer c (list_inserts 0 (take size (pData os)) resized) in
    (true, c, [Call_StagingTexture_GetDesc; Call_Map; Call_Unmap]).

Definition CaptureFrame (c : ScreenCaptureDX11) (os : CaptureEnv)
  : bool * ScreenCaptureDX11 * list event :=
  let c := set_metadata c 0 0 0 0 in
  if is_null (m_device c) || is_null (m_deviceContext c)
                          || is_null (m_outputDuplication c)
  then (false, c, [])
  else
    let '(acquired, cacquiredDesktopImage, tr1) := AcquireNextFrame os in
    if negb acquired || is_null cacquiredDesktopImage then (false, c, tr1)
    else
      let tr2 := tr1 ++ [Call_GetDesc] in
      if negb (IsFormat32bit (desc_Format os)) then (false, c, tr2)
      else
        let '(created, c, tr3) := CreateStagingTexture c os in
        if negb created then (false, c, tr2 ++ tr3 ++ [Call_ReleaseFrame])
        else
          let '(ok, c, tr4) :=
            CopyStagingTextureToMemory c (m_deviceContext c) os in
          let tr5 := release (m_stagingTexture c) Release_stagingTexture in
          let c := set_stagingTexture c None in
          (ok, c,
           tr2 ++ tr3 ++ [Call_CopyResource] ++ tr4 ++ tr5 ++ [Call_ReleaseFrame]).

Definition GetFrameWidth (c : ScreenCaptureDX11) : Z := m_frameWidth c.
Definition GetFrameHeight (c : ScreenCaptureDX11) : Z := m_frameHeight c.
Definition GetFrameDepth (c : ScreenCaptureDX11) : Z := m_frameDepth c.
Definition GetFrameStride (c : ScreenCaptureDX11) : Z := m_frameStride c.

(** How often a call occurs in a trace. *)
Definition count (e : event) (tr : list event) : nat :=
  length (filter (λ x, x = e) tr).

(** The two acquisition outcomes after which the loop releases the frame
    and tries again: the present-time marker is zero, or no resource came
    back. *)
Definition is_retry (a : frame_answer) : bool :=
  acq_succeeded a && ((LastPresentTime a =? 0) || is_null (acq_resource a)).

(** The acquisition timed out or the driver reported an error. *)
Definition is_failure (a : frame_answer) : bool := negb (acq_succeeded a).

(** The calls of one attempt that is retried. *)
Definition retried : list event :=
  [Call_AcquireNextFrame; Call_ReleaseFrame; Call_Sleep].

(** The states in which no frame has been captured since the object was
    constructed or since its latest [Startup]. *)
Inductive uncaptured : ScreenCaptureDX11 → Prop :=
| uncaptured_fresh : uncaptured fresh
| uncaptured_Startup c os : uncaptured (Startup c os).1.2
| uncaptured_Shutdown c : uncaptured c → uncaptured (Shutdown c).1
| uncaptured_CaptureFrame c os :
    uncaptured c → (CaptureFrame c os).1.1 = false →
    uncaptured (CaptureFrame c os).1.2.

(** The test of [InitializeDevice] on the answer of [D3D11CreateDevice]:
    a success code and both pointers set. *)
Definition device_created (a : device_answer) : bool :=
  dev_succeeded a && negb (is_null (dev_device a))
                  && negb (is_null (dev_context a)).

(** The driver types of the [D3D11CreateDevice] calls in a trace, in order. *)
Definition created_drivers (tr : list event) : list D3D_DRIVER_TYPE :=
  omap (λ e, match e with Call_D3D11CreateDevice d => Some d | _ => None end) tr.

(** [CaptureFrame] passes its first test: the three interfaces are set. *)
Definition ready (c : ScreenCaptureDX11) : bool :=
  negb (is_null (m_device c) || is_null (m_deviceContext c)
        || is_null (m_outputDuplication c)).

End DX11.

(** ** ScreenCapture, the facade of ScreenCap.h *)

Module Facade.

Inductive ScreenCaptureMode :=
| ScreenCaptureMode_Invalid
| ScreenCaptureMode_GDI
| ScreenCaptureMode_DX11.

Global Instance ScreenCaptureMode_eq_dec : EqDecision ScreenCaptureMode.
Proof. solve_decision. Defined.

(** The members of [class ScreenCapture]; a backend pointer is [Some] of
    the object it owns. *)
Record ScreenCapture := mkCap {
  m_mode : ScreenCaptureMode;
  m_capgdi : option GDI.ScreenCaptureGDI;
  m_capdx11 : option DX11.ScreenCaptureDX11
}.

Definition fresh : ScreenCapture :=
  mkCap ScreenCaptureMode_Invalid None None.

(** [delete] runs the backend's destructor, which calls its [Shutdown];
    the calls the DX11 backend makes there are returned. *)
Definition Shutdown (f : ScreenCapture) : ScreenCapture * list DX11.event :=
  let tr :=
    match m_capdx11 f with
    | Some d => (DX11.Shutdown d).2
    | None => []
    end in
  (mkCap ScreenCaptureMode_Invalid None None, tr).

Definition Startup (f : ScreenCapture) (mode : ScreenCaptureMode)
    (gos : GDI.StartupEnv) (dos : DX11.StartupEnv)
  : bool * ScreenCapture * list DX11.event :=
  let '(f, tr0) :=
    if decide (m_mode f = ScreenCaptureMode_Invalid) then (f, [])
    else Shutdown f in
  match mode with
  | ScreenCaptureMode_GDI =>
      let '(ok, g) := GDI.Startup GDI.fresh gos in
      (ok, mkCap mode (Some g) (m_capdx11 f), tr0)
  | ScreenCaptureMode_DX11 =>
      let '(ok, d, tr) := DX11.Startup DX11.fresh dos in
      (ok, mkCap mode (m_capgdi f) (Some d), tr0 ++ tr)
  | ScreenCaptureMode_Invalid =>
      (false, mkCap mode (m_capgdi f) (m_capdx11 f), tr0)
  end.

Definition CaptureFrame (f : ScreenCapture) (BitBlt : option (list byte))
    (os : DX11.CaptureEnv) : bool * ScreenCapture * list DX11.event :=
  match m_capgdi f, m_capdx11 f with
  | Some g, _ =>
      let '(ok, g') := GDI.CaptureFrame g BitBlt in
      (ok, mkCap (m_mode f) (Some g') (m_capdx11 f), [])
  | None, Some d =>
      let '(ok, d', tr) := DX11.CaptureFrame d os in
      (ok, mkCap (m_mode f) None (Some d'), tr)
  | None, None => (false, f, [])
  end.

(** A client that calls [CaptureFrame] once for every element of [calls],
    each with what the system answers during that call: the session it
    ends in. *)
Definition CaptureFrames (f : ScreenCapture)
    (calls : list (option (list byte) * DX11.CaptureEnv)) : ScreenCapture :=
  foldl (λ f call, (CaptureFrame f call.1 call.2).1.2) f calls.

Definition GetCaptureMode (f : ScreenCapture) : ScreenCaptureMode := m_mode f.

(** The dispatch shared by the four metadata accessors. *)
Definition dispatch (f : ScreenCapture) (gdi : GDI.ScreenCaptureGDI → Z)
    (dx11 : DX11.ScreenCaptureDX11 → Z) : Z :=
  match m_capgdi f, m_capdx11 f with
  | Some g, _ => gdi g
  | None, Some d => dx11 d
  | None, None => 0
  end.

Definition GetFrameWidth (f : ScreenCapture) : Z :=
  dispatch f GDI.GetFrameWidth DX11.GetFrameWidth.
Definition GetFrameHeight (f : ScreenCapture) : Z :=
  dispatch f GDI.GetFrameHeight DX11.GetFrameHeight.
Definition GetFrameDepth (f : ScreenCapture) : Z :=
  dispatch f GDI.GetFrameDepth DX11.GetFrameDepth.
Definition GetFrameStride (f : ScreenCapture) : Z :=
  dispatch f GDI.GetFrameStride DX11.GetFrameStride.

(** The no-backend-selected state. *)
Definition no_backend (f : ScreenCapture) : Prop :=
  m_mode f = ScreenCaptureMode_Invalid ∧ m_capgdi f = None ∧ m_capdx11 f = None.

(** The states a client can bring a new session into. *)
Inductive reachable : ScreenCapture → Prop :=
| reachable_fresh : reachable fresh
| reachable_Startup f mode gos dos :
    reachable f → reachable (Startup f mode gos dos).1.2
| reachable_Shutdown f : reachable f → reachable (Shutdown f).1
| reachable_CaptureFrame f b os :
    reachable f → reachable (CaptureFrame f b os).1.2.

(** The reachable states of a session that does not run the GDI backend
    and in which no frame has been captured since the latest [Startup]. *)
Inductive uncaptured : ScreenCapture → Prop :=
| uncaptured_fresh : uncaptured fresh
| uncaptured_Startup f mode gos dos :
    reachable f → mode ≠ ScreenCaptureMode_GDI →
    uncaptured (Startup f mode gos dos).1.2
| uncaptured_Shutdown f : reachable f → uncaptured (Shutdown f).1
| uncaptured_CaptureFrame f b os :
    uncaptured f → (CaptureFrame f b os).1.1 = false →
    uncaptured (CaptureFrame f b os).1.2.

End Facade.

(** ** VideoFileEncoder, the sink the captured frames are handed to *)

Module Encoder.

(** The members of [class VideoFileEncoder] that [Start], [Stop] and
    [AddFrame] read or write.  The sink writer is a Media Foundation object:
    only its pointer is kept. *)
Record VideoFileEncoder := mkEnc {
  m_width : Z;
  m_height : Z;
  m_fps : Z;
  m_frameDuration : Z;
  m_bitRate : Z;
  m_pixels : list byte;
  m_pSinkWriter : option handle;
  m_stream : Z
}.

Definition fresh : VideoFileEncoder := mkEnc 0 0 0 0 0 [] None 0.

Definition set_writer (e : VideoFileEncoder) (w : option handle) (stream : Z)
  : VideoFileEncoder :=
  mkEnc (m_width e) (m_height e) (m_fps e) (m_frameDuration e) (m_bitRate e)
        (m_pixels e) w stream.

Definition set_pixels (e : VideoFileEncoder) (buf : list byte) : VideoFileEncoder :=
  mkEnc (m_width e) (m_height e) (m_fps e) (m_frameDuration e) (m_bitRate e)
        buf (m_pSinkWriter e) (m_stream e).

(** [width * height] is a 32-bit product; times 2.5 it is exact in a
    [double], and the bit rate is its integer part (the conversion to
    [uint32_t] is defined while that is below [2^32]).  The buffer size is
    the same product times [sizeof(uint32_t)], taken in [size_t]. *)
Definition SetFrameFormat (e : VideoFileEncoder) (width height fps : Z)
  : bool * VideoFileEncoder :=
  if (width <? 1) || (height <? 1) || (fps <? 1) then (false, e)
  else
    let area := to_unsigned (width * height) in
    (true,
     mkEnc width height fps (10 * 1000 * 1000 / fps) (5 * area / 2)
           (resize (Z.to_nat (area * 4)) x00 (m_pixels e))
           (m_pSinkWriter e) (m_stream e)).

(** [Finalize] tells whether [IMFSinkWriter::Finalize] succeeds. *)
Definition Stop (e : VideoFileEncoder) (Finalize : bool) : bool * VideoFileEncoder :=
  if is_null (m_pSinkWriter e) then (false, e)
  else (Finalize, set_writer e None (m_stream e)).

(** What the system answers during one [Start] call.
    [InitializeSinkWriter] is the outcome of the Media Foundation calls of
    the member of that name: [None] when one of them fails (it then stores a
    null writer and stream 0), else the writer and the stream index. *)
Record StartEnv := mkStartEnv {
  Finalize : bool;
  InitializeSinkWriter : option (handle * Z)
}.

Definition Start (e : VideoFileEncoder) (width height fps : Z) (os : StartEnv)
  : bool * VideoFileEncoder :=
  let e := if is_null (m_pSinkWriter e) then e else (Stop e (Finalize os)).2 in
  let '(ok, e) := SetFrameFormat e width height fps in
  if negb ok then (false, e)
  else
    match InitializeSinkWriter os with
    | None => (false, set_writer e None 0)
    | Some (writer, stream) => (true, set_writer e (Some writer) stream)
    end.

(** How a call ends: it returns, or it calls a member of a null pointer. *)
Inductive outcome :=
| Returned (b : bool)
| NullDereference.

(** What the system answers during one [WriteFrame] call: whether the calls
    that build the sample (from [MFCreateMemoryBuffer] to
    [SetSampleDuration]) all succeed, and whether [WriteSample] does. *)
Record FrameEnv := mkFrameEnv {
  sample_built : bool;
  WriteSample : bool
}.

Definition WriteFrame (pWriter : option handle) (os : FrameEnv) : outcome :=
  if negb (sample_built os) then Returned false
  else if is_null pWriter then NullDereference
  else Returned (WriteSample os).

(** [pixels] is [None] for a null pointer, else the bytes it points at. *)
Definition AddFrame (e : VideoFileEncoder) (pixels : option (list byte))
    (flipY : bool) (os : FrameEnv) : outcome * VideoFileEncoder :=
  match pixels with
  | None => (Returned false, e)
  | Some src =>
      if bool_decide (m_pixels e = []) then (Returned false, e)
      else
        let size := to_unsigned (m_width e * m_height e) * 4 in
        let buf := mem_write (m_pixels e) 0 (mem_read src 0 size) in
        let buf :=
          if flipY then
            let stride := to_unsigned (m_width e * 4) in
            let scanline2 := to_unsigned (to_unsigned (m_height e - 1) * stride) in
            GDI.flip_scanlines (Z.to_nat (m_height e / 2)) stride 0 scanline2 buf
          else buf in
        (WriteFrame (m_pSinkWriter e) os, set_pixels e buf)
  end.

Definition GetFrameDuration (e : VideoFileEncoder) : Z := m_frameDuration e.
Definition GetFrameBuffer (e : VideoFileEncoder) : list byte := m_pixels e.

End Encoder.

(** ** BmpWrite, the bitmap file writer of captest.cpp *)

Module Bmp.

(** What [BmpWrite] hands to [fwrite]: the two header structures, by their
    fields, and the scanlines. *)
Inductive chunk :=
| FileHeader (bfType bfSize bfOffBits : Z)
| InfoHeader (biSize biWidth biHeight biPlanes biBitCount biSizeImage : Z)
| Scanline (bytes : list byte).

(** [sizeof(BITMAPFILEHEADER)] and [sizeof(BITMAPINFOHEADER)] (wingdi.h). *)
Definition sizeof_BITMAPFILEHEADER : Z := 14.
Definition sizeof_BITMAPINFOHEADER : Z := 40.

(** What the system answers during one call: whether [fopen_s] opens the
    file, and whether the [k]-th [fwrite] writes its item. *)
Record WriteEnv := mkWriteEnv {
  fopen_ok : bool;
  fwrite_ok : nat → bool
}.

(** [while (outStride % 4) outStride++;] on an [unsigned]. *)
Fixpoint align_stride (fuel : nat) (outStride : Z) : Z :=
  match fuel with
  | O => outStride
  | S fuel' =>
      if outStride mod 4 =? 0 then outStride
      else align_stride fuel' (to_unsigned (outStride + 1))
  end.

Definition out_stride (width bitsPerPixel : Z) : Z :=
  align_stride 3 (to_unsigned (width * bitsPerPixel) / 8).

(** The loop over the scanlines: [left] rows remain, the next [fwrite] is
    the [k]-th and [scanline] is the offset of the row from [pBits].  The
    result is false at the first [fwrite] that fails. *)
Fixpoint write_scanlines (left k : nat) (scanline stride outStride : Z)
    (pBits : list byte) (os : WriteEnv) : bool * list chunk :=
  match left with
  | O => (true, [])
  | S left' =>
      if negb (fwrite_ok os k) then (false, [])
      else
        let '(ok, rest) :=
          write_scanlines left' (S k) (scanline - stride) stride outStride pBits os in
        (ok, Scanline (mem_read pBits scanline outStride) :: rest)
  end.

(** The result and the file the call leaves: [None] when it has not been
    created or has been unlinked again. *)
Definition BmpWrite (szPath : option (list byte)) (width height stride bitsPerPixel : Z)
    (pBits : option (list byte)) (os : WriteEnv) : bool * option (list chunk) :=
  match szPath, pBits with
  | Some path, Some bits =>
      if bool_decide (path = []) || (width <? 1) || (height <? 1)
         || (stride <? to_unsigned (width * 3))
         || (negb (bitsPerPixel =? 24) && negb (bitsPerPixel =? 32))
      then (false, None)
      else if negb (fopen_ok os) then (false, None)
      else
        let outStride := out_stride width bitsPerPixel in
        let biSize := sizeof_BITMAPINFOHEADER in
        let biSizeImage := to_unsigned (outStride * height) in
        let info := InfoHeader biSize (to_int width) (to_int height) 1
                               bitsPerPixel biSizeImage in
        let file := FileHeader (66 + 256 * 77)
                      (to_unsigned (sizeof_BITMAPFILEHEADER + biSize + biSizeImage))
                      (to_unsigned (sizeof_BITMAPFILEHEADER + biSize)) in
        if negb (fwrite_ok os 0) then (false, None)
        else if negb (fwrite_ok os 1) then (false, None)
        else
          let scanline := to_unsigned (stride * to_unsigned (height - 1)) in
          let '(ok, rows) :=
            write_scanlines (Z.to_nat height) 2 scanline stride outStride bits os in
          if ok then (true, Some (file :: info :: rows)) else (false, None)
  | _, _ => (false, None)
  end.

End Bmp.

(** ** Concrete sessions and system answers used by the examples *)

Module Examples.

(** A single 1920x1080 display on which every GDI call succeeds. *)
Definition gdi_ok : GDI.StartupEnv :=
  GDI.mkStartupEnv 1920 1080 1 1920 1080 (Some 11%positive)
    (Some 12%positive, Some 13%positive)
    (replicate (Z.to_nat (1920 * 4 * 1080)) x00) (Some 14%positive).

(** The same display when [CreateCompatibleDC] returns null. *)
Definition gdi_no_dc : GDI.StartupEnv :=
  GDI.mkStartupEnv 1920 1080 1 1920 1080 None (None, None) [] None.

(** A GDI session on a display 1 pixel wide and 3 pixels high. *)
Definition gdi_1x3 : GDI.ScreenCaptureGDI :=
  GDI.mkGDI 1 3 32 4 (Some 11%positive) (Some 12%positive) (Some 14%positive)
    (Some 13%positive) (replicate 12 x00).

(** The bottom-up image of that display: rows of 0x03, 0x02 and 0x01. *)
Definition img_1x3 : list byte :=
  [x03; x03; x03; x03; x02; x02; x02; x02; x01; x01; x01; x01].

(** A started DX11 backend that still holds the metadata of an earlier
    frame. *)
Definition dx_started : DX11.ScreenCaptureDX11 :=
  DX11.mkDX11 (Some 1%positive) (Some 2%positive) None (Some 3%positive)
    [] 1920 1080 32 7680.

(** A DX11 backend holding all four interfaces. *)
Definition dx_full : DX11.ScreenCaptureDX11 :=
  DX11.mkDX11 (Some 1%positive) (Some 2%positive) (Some 4%positive)
    (Some 3%positive) [x01] 1920 1080 32 7680.

Definition frame_ready : DX11.frame_answer :=
  DX11.mkFrame true 1000 (Some 5%positive).
Definition frame_timeout : DX11.frame_answer :=
  DX11.mkFrame false 0 None.
Definition frame_not_composited : DX11.frame_answer :=
  DX11.mkFrame true 0 (Some 5%positive).

(** A capture on a 2x1 desktop where every call succeeds, with the given
    acquisition answers and surface format. *)
Definition dx_env (answers : nat → DX11.frame_answer) (fmt : Z) : DX11.CaptureEnv :=
  DX11.mkCaptureEnv answers (DX11.mkCom true (Some 6%positive))
    2 1 fmt (DX11.mkCom true (Some 7%positive)) true 8
    [x01; x02; x03; x04; x05; x06; x07; x08].

(** Nothing changed on the screen: every acquisition times out. *)
Definition dx_env_timeout : DX11.CaptureEnv :=
  dx_env (λ _, frame_timeout) DX11.DXGI_FORMAT_B8G8R8A8_UNORM.

(** A frame is ready at once, in a supported format. *)
Definition dx_env_bgra : DX11.CaptureEnv :=
  dx_env (λ _, frame_ready) DX11.DXGI_FORMAT_B8G8R8A8_UNORM.

(** A frame is ready at once, but the output is in an RGBA format. *)
Definition dx_env_rgba : DX11.CaptureEnv :=
  dx_env (λ _, frame_ready) DX11.DXGI_FORMAT_R8G8B8A8_UNORM.

(** One frame that is not composited yet, then a timeout. *)
Definition dx_env_retry_timeout : DX11.CaptureEnv :=
  dx_env (λ k, match k with O => frame_not_composited | _ => frame_timeout end)
    DX11.DXGI_FORMAT_B8G8R8A8_UNORM.

(** No driver type yields a device. *)
Definition dx_no_device : DX11.StartupEnv :=
  DX11.mkStartupEnv (λ _, DX11.mkDevice false None None)
    false false false false (DX11.mkCom false None).

(** Only the WARP driver yields a device; the duplication then starts. *)
Definition dx_on : DX11.StartupEnv :=
  DX11.mkStartupEnv
    (λ d, match d with
          | DX11.D3D_DRIVER_TYPE_WARP =>
              DX11.mkDevice true (Some 21%positive) (Some 22%positive)
          | _ => DX11.mkDevice false None None
          end)
    true true true true (DX11.mkCom true (Some 23%positive)).

End Examples.

(** * Properties *)

(** ** The GDI backend *)

(** C10: [CaptureFrame] returns false exactly when the memory display
    context is absent or the width is zero.  Its result does not depend on
    what [BitBlt] did, whose return value is never looked at; a call leaves
    the context and the width as they were, so the same holds for every
    later call; and after a successful [Startup] on a screen of non-zero
    width it returns true. *)
Theorem GDI_CaptureFrame_result (c : GDI.ScreenCaptureGDI) (b : option (list byte)) :
  ((GDI.CaptureFrame c b).1 = false ↔ GDI.m_hdcMem c = None ∨ GDI.m_width c = 0) ∧
  (GDI.CaptureFrame c b).1 = (GDI.CaptureFrame c None).1 ∧
  GDI.m_hdcMem (GDI.CaptureFrame c b).2 = GDI.m_hdcMem c ∧
  GDI.m_width (GDI.CaptureFrame c b).2 = GDI.m_width c ∧
  (∀ os, (GDI.Startup c os).1 = true →
         GDI.m_width (GDI.Startup c os).2 ≠ 0 →
         (GDI.CaptureFrame (GDI.Startup c os).2 b).1 = true).
Proof.
  split_and!.
  - unfold GDI.CaptureFrame.
    destruct (GDI.m_hdcMem c) as [hdc|]; simpl; [|by split; auto].
    destruct (Z.eqb_spec (GDI.m_width c) 0) as [Hw|Hw]; simpl.
    + split; auto.
    + split; [done|]. by intros [?|?].
  - unfold GDI.CaptureFrame. by repeat case_match.
  - unfold GDI.CaptureFrame. by repeat case_match.
  - unfold GDI.CaptureFrame. by repeat case_match.
  - intros os. unfold GDI.Startup.
    destruct (GDI.CreateCompatibleDC os) as [hdc|]; [|done].
    destruct (GDI.CreateDIBSection os) as [section bits].
    destruct (is_null section || is_null bits); [done|].
    intros _. unfold GDI.CaptureFrame. cbn [snd GDI.m_width GDI.m_hdcMem is_null].
    intros Hw. by destruct (Z.eqb_spec (to_unsigned
      (if 1 <? GDI.SM_CMONITORS os then GDI.SM_CXVIRTUALSCREEN os
       else GDI.SM_CXSCREEN os)) 0).
Qed.

(** C2 (the code breaks it): after a successful [Startup] followed by
    [Shutdown] the width is zero while [GetFrameBuffer] still returns the
    pointer into the deleted section; and after a [Startup] in which
    [CreateCompatibleDC] fails the width is 1920 while [GetFrameBuffer]
    returns null. *)
Theorem GDI_width_buffer_out_of_step :
  (GDI.GetFrameWidth (GDI.run [GDI.CallStartup Examples.gdi_ok; GDI.CallShutdown]) = 0 ∧
   GDI.GetFrameBuffer (GDI.run [GDI.CallStartup Examples.gdi_ok; GDI.CallShutdown])
     = Some 13%positive) ∧
  ((GDI.Startup GDI.fresh Examples.gdi_no_dc).1 = false ∧
   GDI.GetFrameWidth (GDI.run [GDI.CallStartup Examples.gdi_no_dc]) = 1920 ∧
   GDI.GetFrameBuffer (GDI.run [GDI.CallStartup Examples.gdi_no_dc]) = None).
Proof. repeat split; reflexivity. Qed.

(** *** The scanline reordering of [CaptureFrame] *)

(** Byte [j] of row [r] lies in the byte range of row [a] only if [r = a]. *)
Lemma row_offset_range (r a s j : nat) :
  (j < s → (a * s ≤ r * s + j < a * s + s ↔ r = a))%nat.
Proof.
  intros Hj. split.
  - intros [H1 H2]. nia.
  - intros ->. lia.
Qed.

(** One iteration of the loop body: the two [memcpy] into the buffer
    exchange the [s] bytes at offset [a] with the [s] bytes at offset [b]
    and touch nothing else. *)
Lemma swap_rows_lookup (bits : list byte) (a b s p : nat) :
  (a + s ≤ b)%nat → (b + s ≤ length bits)%nat →
  list_inserts b (take s (drop a bits))
    (list_inserts a (take s (drop b bits)) bits) !! p =
  bits !! (if decide (a ≤ p < a + s)%nat then (b + (p - a))%nat
           else if decide (b ≤ p < b + s)%nat then (a + (p - b))%nat else p).
Proof.
  intros Hab Hb.
  assert (Hla : length (take s (drop a bits)) = s).
  { rewrite length_take, length_drop. lia. }
  assert (Hlb : length (take s (drop b bits)) = s).
  { rewrite length_take, length_drop. lia. }
  destruct (decide (a ≤ p < a + s)%nat) as [Ha|Ha].
  - rewrite list_lookup_inserts_lt by lia.
    rewrite list_lookup_inserts by lia.
    rewrite lookup_take_lt by lia. by rewrite lookup_drop.
  - destruct (decide (b ≤ p < b + s)%nat) as [Hp|Hp].
    + rewrite list_lookup_inserts by (rewrite ?length_inserts; lia).
      rewrite lookup_take_lt by lia. by rewrite lookup_drop.
    + destruct (decide (p < b)%nat).
      * rewrite list_lookup_inserts_lt by lia.
        destruct (decide (p < a)%nat).
        -- by rewrite list_lookup_inserts_lt by lia.
        -- by rewrite list_lookup_inserts_ge by lia.
      * rewrite list_lookup_inserts_ge by lia.
        by rewrite list_lookup_inserts_ge by lia.
Qed.

(** The loop invariant.  When the loop counter is [k], the rows below [k]
    and above [h-1-k] of the buffer hold the mirrored rows of the blitted
    image and the rows in between are still as blitted; [n] more iterations
    move the boundary to [k+n]. *)
Lemma flip_scanlines_rows (n : nat) :
  ∀ (k s h : nat) (bits img : list byte) (o1 o2 : Z),
    o1 = Z.of_nat (k * s) → o2 = Z.of_nat ((h - 1 - k) * s) →
    (2 * (k + n) ≤ h)%nat → length bits = (h * s)%nat →
    (∀ r j, (r < h)%nat → (j < s)%nat →
       bits !! (r * s + j)%nat =
       img !! ((if decide (r < k ∨ h - 1 - k < r)%nat
                then h - 1 - r else r) * s + j)%nat) →
    ∀ r j, (r < h)%nat → (j < s)%nat →
      GDI.flip_scanlines n (Z.of_nat s) o1 o2 bits !! (r * s + j)%nat =
      img !! ((if decide (r < k + n ∨ h - 1 - (k + n) < r)%nat
               then h - 1 - r else r) * s + j)%nat.
Proof.
  induction n as [|n IH]; intros k s h bits img o1 o2 -> -> Hn Hlen Hinv r j Hr Hj.
  - simpl. rewrite Nat.add_0_r. by apply Hinv.
  - simpl. unfold mem_read, mem_write. rewrite !Nat2Z.id.
    replace (k + S n)%nat with (S k + n)%nat by lia.
    assert (Hab : (k * s + s ≤ (h - 1 - k) * s)%nat) by nia.
    assert (Hb : ((h - 1 - k) * s + s ≤ length bits)%nat) by nia.
    apply IH; [ lia | | lia | by rewrite !length_inserts | | lia | lia ].
    + rewrite <- Nat2Z.inj_sub by nia. f_equal. nia.
    + clear r j Hr Hj. intros r j Hr Hj.
      rewrite swap_rows_lookup by done.
      destruct (decide (k * s ≤ r * s + j < k * s + s)%nat) as [H1|H1].
      { apply row_offset_range in H1 as ->; [|done].
        replace ((h - 1 - k) * s + (k * s + j - k * s))%nat
          with ((h - 1 - k) * s + j)%nat by lia.
        rewrite Hinv by lia.
        repeat case_decide; try lia. done. }
      destruct (decide ((h - 1 - k) * s ≤ r * s + j < (h - 1 - k) * s + s)%nat)
        as [H2|H2].
      { apply row_offset_range in H2 as ->; [|done].
        replace (k * s + ((h - 1 - k) * s + j - (h - 1 - k) * s))%nat
          with (k * s + j)%nat by lia.
        rewrite Hinv by lia.
        repeat case_decide; try lia. f_equal. f_equal. f_equal. lia. }
      rewrite Hinv by done.
      rewrite row_offset_range in H1, H2 by done.
      repeat case_decide; try lia; done.
Qed.

(** C4: in a started session whose buffer of [height * stride] bytes is
    addressable with 32-bit offsets, a [CaptureFrame] whose blit wrote the
    bottom-up image [img] returns true and leaves, in every row [i] of the
    pixel buffer, row [height - 1 - i] of [img]: the loop swaps row [i] with
    row [height - 1 - i] for each [i < height / 2], so row 0 holds the last
    blitted row, the topmost scanline of the screen. *)
Theorem GDI_CaptureFrame_reverses_rows (c : GDI.ScreenCaptureGDI) (img : list byte) :
  GDI.m_hdcMem c ≠ None → GDI.m_width c ≠ 0 →
  0 ≤ GDI.m_stride c → 0 ≤ GDI.m_height c →
  GDI.m_height c * GDI.m_stride c < 2 ^ 32 →
  length img = Z.to_nat (GDI.m_height c * GDI.m_stride c) →
  (GDI.CaptureFrame c (Some img)).1 = true ∧
  ∀ i, 0 ≤ i < GDI.m_height c →
    GDI.scanline_at (GDI.dib_pixels (GDI.CaptureFrame c (Some img)).2)
                    (GDI.m_stride c) i =
    GDI.scanline_at img (GDI.m_stride c) (GDI.m_height c - 1 - i).
Proof.
  intros Hdc Hw Hs Hh Hsize Hlen. unfold GDI.CaptureFrame.
  destruct (GDI.m_hdcMem c) as [hdc|]; [|done]. simpl.
  destruct (Z.eqb_spec (GDI.m_width c) 0) as [|_]; [done|]. simpl.
  split; [done|]. intros i Hi.
  remember (Z.to_nat (GDI.m_height c)) as h eqn:Eh.
  remember (Z.to_nat (GDI.m_stride c)) as s eqn:Es.
  assert (Hh' : GDI.m_height c = Z.of_nat h) by lia.
  assert (Hs' : GDI.m_stride c = Z.of_nat s) by lia.
  rewrite Hh', Hs' in *. clear Hh' Hs' Eh Es.
  assert (Hoff : to_unsigned (to_unsigned (Z.of_nat h - 1) * to_unsigned (Z.of_nat s))
                 = Z.of_nat ((h - 1 - 0) * s)).
  { unfold to_unsigned.
    rewrite <- Z.mul_mod by lia.
    rewrite Z.mod_small by nia. nia. }
  rewrite Hoff. clear Hoff.
  assert (Hdiv : Z.to_nat (Z.of_nat h / 2) = (h / 2)%nat).
  { rewrite <- (Nat2Z.id (h / 2)). f_equal. by rewrite Nat2Z.inj_div. }
  rewrite Hdiv. clear Hdiv.
  pose proof (Nat.div_mod_eq h 2) as Hdm.
  pose proof (Nat.mod_upper_bound h 2 ltac:(lia)) as Hmod.
  unfold GDI.scanline_at, mem_read. rewrite Nat2Z.id.
  apply list_eq. intros j.
  destruct (decide (j < s)%nat) as [Hj|Hj].
  - rewrite !lookup_take_lt, !lookup_drop by done.
    replace (Z.to_nat (Z.of_nat s * i) + j)%nat with (Z.to_nat i * s + j)%nat by nia.
    replace (Z.to_nat (Z.of_nat s * (Z.of_nat h - 1 - i)) + j)%nat
      with ((h - 1 - Z.to_nat i) * s + j)%nat by nia.
    rewrite (flip_scanlines_rows (h / 2) 0 s h img img) with (r := Z.to_nat i);
      try done; try lia.
    + repeat case_decide; try done.
      f_equal. f_equal. f_equal. lia.
    + intros r j' Hr Hj'. repeat case_decide; try done; lia.
  - by rewrite !lookup_take_ge by lia.
Qed.

Lemma GDI_CaptureFrame_reverses_rows_witness :
  (GDI.CaptureFrame Examples.gdi_1x3 (Some Examples.img_1x3)).1 = true ∧
  ∀ i, 0 ≤ i < 3 →
    GDI.scanline_at
      (GDI.dib_pixels (GDI.CaptureFrame Examples.gdi_1x3 (Some Examples.img_1x3)).2) 4 i =
    GDI.scanline_at Examples.img_1x3 4 (3 - 1 - i).
Proof.
  apply (GDI_CaptureFrame_reverses_rows Examples.gdi_1x3 Examples.img_1x3);
    simpl; first [ done | lia ].
Defined.

(** On that display, the three rows come out in the opposite order. *)
Example GDI_CaptureFrame_1x3 :
  GDI.dib_pixels (GDI.CaptureFrame Examples.gdi_1x3 (Some Examples.img_1x3)).2 =
  [x01; x01; x01; x01; x02; x02; x02; x02; x03; x03; x03; x03].
Proof. reflexivity. Qed.

(** *** What [Startup] leaves behind *)

(** A failed [Startup] leaves the display context null and does not touch
    the depth and the stride. *)
Lemma GDI_Startup_failed (c : GDI.ScreenCaptureGDI) (os : GDI.StartupEnv) :
  (GDI.Startup c os).1 = false →
  GDI.m_hdcMem (GDI.Startup c os).2 = None ∧
  GDI.m_depth (GDI.Startup c os).2 = GDI.m_depth c ∧
  GDI.m_stride (GDI.Startup c os).2 = GDI.m_stride c.
Proof.
  unfold GDI.Startup.
  destruct (GDI.CreateCompatibleDC os); [|done].
  destruct (GDI.CreateDIBSection os) as [section bits].
  destruct (is_null section || is_null bits); done.
Qed.

(** The stride computed for an [unsigned] width: the product with 32 wraps
    at [2^32], so four times the width modulo [2^27]; it is a multiple of 4
    already and the alignment loop does not run. *)
Lemma stride_of_width (w : Z) :
  GDI.align_stride 3 (to_int (to_unsigned (to_unsigned w * 32) / 8))
  = 4 * (w mod 2 ^ 27).
Proof.
  unfold to_unsigned.
  assert (H32 : (w mod 2 ^ 32 * 32) mod 2 ^ 32 = 32 * (w mod 2 ^ 27)).
  { rewrite Z.mul_mod_idemp_l by lia.
    rewrite (Z.mul_comm w 32).
    change (2 ^ 32) with (32 * 2 ^ 27).
    by rewrite Z.mul_mod_distr_l by lia. }
  rewrite H32.
  pose proof (Z.mod_pos_bound w (2 ^ 27) ltac:(lia)) as Hb.
  replace (32 * (w mod 2 ^ 27) / 8) with (4 * (w mod 2 ^ 27))
    by (apply Z.div_unique_exact; lia).
  unfold to_int. rewrite Z.mod_small by lia.
  destruct (Z.ltb_spec (4 * (w mod 2 ^ 27)) (2 ^ 31)); [|lia].
  simpl. rewrite Z.mul_comm, Z.rem_mul by lia. done.
Qed.

(** A successful [Startup] has already set all four metadata members. *)
Lemma GDI_Startup_succeeded (c : GDI.ScreenCaptureGDI) (os : GDI.StartupEnv) :
  (GDI.Startup c os).1 = true →
  let width := if 1 <? GDI.SM_CMONITORS os
               then GDI.SM_CXVIRTUALSCREEN os else GDI.SM_CXSCREEN os in
  let height := if 1 <? GDI.SM_CMONITORS os
                then GDI.SM_CYVIRTUALSCREEN os else GDI.SM_CYSCREEN os in
  GDI.GetFrameWidth (GDI.Startup c os).2 = to_unsigned width ∧
  GDI.GetFrameHeight (GDI.Startup c os).2 = to_unsigned height ∧
  GDI.GetFrameDepth (GDI.Startup c os).2 = 32 ∧
  GDI.GetFrameStride (GDI.Startup c os).2 = 4 * (width mod 2 ^ 27).
Proof.
  unfold GDI.Startup.
  destruct (GDI.CreateCompatibleDC os); [|done].
  destruct (GDI.CreateDIBSection os) as [section bits].
  destruct (is_null section || is_null bits); [done|].
  intros _. cbv zeta. unfold GDI.GetFrameWidth, GDI.GetFrameHeight,
    GDI.GetFrameDepth, GDI.GetFrameStride. cbn [snd GDI.m_width GDI.m_height
    GDI.m_depth GDI.m_stride].
  split_and!; try done.
  rewrite stride_of_width.
  unfold to_unsigned at 1.
  pose proof (Z.mod_pos_bound
    (if 1 <? GDI.SM_CMONITORS os then GDI.SM_CXVIRTUALSCREEN os else GDI.SM_CXSCREEN os)
    (2 ^ 27) ltac:(lia)) as Hb.
  by rewrite Z.mod_small by lia.
Qed.

(** ** The DX11 backend *)

(** *** Counting calls *)

Lemma count_app (e : DX11.event) (l1 l2 : list DX11.event) :
  DX11.count e (l1 ++ l2) = (DX11.count e l1 + DX11.count e l2)%nat.
Proof. unfold DX11.count. by rewrite filter_app, length_app. Qed.

Lemma count_retried (e : DX11.event) (k : nat) :
  DX11.count e (concat (replicate k DX11.retried)) = (k * DX11.count e DX11.retried)%nat.
Proof.
  induction k as [|k IH]; [done|].
  change (concat (replicate (S k) DX11.retried))
    with (DX11.retried ++ concat (replicate k DX11.retried)).
  rewrite count_app, IH. lia.
Qed.

(** *** The acquisition loop *)

(** When the answers of attempts [attempt .. attempt+k-1] ask for a retry
    and that of attempt [attempt+k] does not, the loop makes exactly those
    [k+1] acquisitions, releasing the frame after each of the first [k], and
    ends with the last answer. *)
Lemma acquire_loop_stops (os : DX11.CaptureEnv) (k : nat) :
  ∀ (left attempt : nat) (hr : bool) (res : option handle),
    (k < left)%nat →
    (∀ j, (j < k)%nat →
       DX11.is_retry (DX11.AcquireNextFrame_answer os (attempt + j)) = true) →
    DX11.is_retry (DX11.AcquireNextFrame_answer os (attempt + k)) = false →
    DX11.acquire_loop left attempt os hr res =
      (DX11.acq_succeeded (DX11.AcquireNextFrame_answer os (attempt + k)),
       DX11.acq_resource (DX11.AcquireNextFrame_answer os (attempt + k)),
       concat (replicate k DX11.retried) ++ [DX11.Call_AcquireNextFrame]).
Proof.
  induction k as [|k IH]; intros left attempt hr res Hk Hpre Hstop.
  - destruct left as [|left]; [lia|]. simpl.
    rewrite Nat.add_0_r in *. unfold DX11.is_retry in Hstop.
    destruct (DX11.AcquireNextFrame_answer os attempt) as [ok t r]; simpl in *.
    destruct ok, (t =? 0), r; simpl in *; done.
  - destruct left as [|left]; [lia|].
    pose proof (Hpre 0%nat ltac:(lia)) as H0. rewrite Nat.add_0_r in H0.
    assert (Hrest : DX11.acquire_loop left (S attempt) os true None =
      (DX11.acq_succeeded (DX11.AcquireNextFrame_answer os (attempt + S k)),
       DX11.acq_resource (DX11.AcquireNextFrame_answer os (attempt + S k)),
       concat (replicate k DX11.retried) ++ [DX11.Call_AcquireNextFrame])).
    { replace (attempt + S k)%nat with (S attempt + k)%nat by lia.
      apply IH; [lia| |].
      - intros j Hj. replace (S attempt + j)%nat with (attempt + S j)%nat by lia.
        apply Hpre. lia.
      - by replace (S attempt + k)%nat with (attempt + S k)%nat by lia. }
    simpl. unfold DX11.is_retry in H0.
    destruct (DX11.AcquireNextFrame_answer os attempt) as [ok t r]; simpl in *.
    destruct ok, (t =? 0), r; simpl in *; try done; by rewrite Hrest.
Qed.

(** When every remaining answer asks for a retry, the loop uses up its
    iterations and ends with a success code and no resource. *)
Lemma acquire_loop_exhausted (os : DX11.CaptureEnv) (left : nat) :
  ∀ (attempt : nat) (hr : bool) (res : option handle),
    (0 < left)%nat →
    (∀ j, (j < left)%nat →
       DX11.is_retry (DX11.AcquireNextFrame_answer os (attempt + j)) = true) →
    DX11.acquire_loop left attempt os hr res =
      (true, None, concat (replicate left DX11.retried)).
Proof.
  induction left as [|left IH]; intros attempt hr res Hpos Hall; [lia|].
  pose proof (Hall 0%nat ltac:(lia)) as H0. rewrite Nat.add_0_r in H0.
  assert (Hrest : DX11.acquire_loop left (S attempt) os true None =
            (true, None, concat (replicate left DX11.retried))).
  { destruct left as [|left']; [done|].
    apply IH; [lia|]. intros j Hj.
    replace (S attempt + j)%nat with (attempt + S j)%nat by lia. apply Hall. lia. }
  simpl. unfold DX11.is_retry in H0.
  destruct (DX11.AcquireNextFrame_answer os attempt) as [ok t r]; simpl in *.
  destruct ok, (t =? 0), r; simpl in *; try done; by rewrite Hrest.
Qed.

(** The loop never acquires more often than it has iterations. *)
Lemma acquire_loop_count (os : DX11.CaptureEnv) (left : nat) :
  ∀ (attempt : nat) (hr : bool) (res : option handle),
    (DX11.count DX11.Call_AcquireNextFrame
       (DX11.acquire_loop left attempt os hr res).2 ≤ left)%nat.
Proof.
  induction left as [|left IH]; intros attempt hr res; simpl; [done|].
  destruct (DX11.AcquireNextFrame_answer os attempt) as [ok t r]; simpl.
  destruct (ok && (t =? 0)).
  { specialize (IH (S attempt) ok None).
    destruct (DX11.acquire_loop left (S attempt) os ok None) as [[h r'] tr].
    change (S (DX11.count DX11.Call_AcquireNextFrame tr) ≤ S left)%nat.
    simpl in IH. lia. }
  destruct (ok && is_null r).
  { specialize (IH (S attempt) ok r).
    destruct (DX11.acquire_loop left (S attempt) os ok r) as [[h r'] tr].
    change (S (DX11.count DX11.Call_AcquireNextFrame tr) ≤ S left)%nat.
    simpl in IH. lia. }
  change (1 ≤ S left)%nat. lia.
Qed.

Lemma AcquireNextFrame_count (os : DX11.CaptureEnv) :
  (DX11.count DX11.Call_AcquireNextFrame (DX11.AcquireNextFrame os).2 ≤ 4)%nat.
Proof.
  unfold DX11.AcquireNextFrame.
  pose proof (acquire_loop_count os 4 0 false None) as H.
  destruct (DX11.acquire_loop 4 0 os false None) as [[hr res] tr].
  simpl in H. repeat case_match; done.
Qed.

(** The calls of [CaptureFrame] start with those of [AcquireNextFrame] and
    none of the later ones is an acquisition. *)
Lemma CaptureFrame_count_acquire (c : DX11.ScreenCaptureDX11) (os : DX11.CaptureEnv) :
  (DX11.count DX11.Call_AcquireNextFrame (DX11.CaptureFrame c os).2
   ≤ DX11.count DX11.Call_AcquireNextFrame (DX11.AcquireNextFrame os).2)%nat.
Proof.
  unfold DX11.CaptureFrame, DX11.CreateStagingTexture,
    DX11.CopyStagingTextureToMemory.
  destruct (DX11.AcquireNextFrame os) as [[acquired image] tr1].
  destruct (DX11.CreateTexture2D os) as [created [tex|]].
  all: repeat (case_match; simplify_eq/=); rewrite ?count_app; simpl;
    unfold DX11.count; simpl; lia.
Qed.

Lemma CaptureFrame_needs_frame (c : DX11.ScreenCaptureDX11) (os : DX11.CaptureEnv) :
  (DX11.AcquireNextFrame os).1.1 = false → (DX11.CaptureFrame c os).1.1 = false.
Proof.
  unfold DX11.CaptureFrame.
  destruct (DX11.AcquireNextFrame os) as [[acquired image] tr1]. simpl.
  intros ->. by repeat case_match.
Qed.

(** C7: a [CaptureFrame] call acquires at most 4 times.  If the answers
    before attempt [k < 4] ask for a retry (zero present-time marker, or no
    resource) and the answer of attempt [k] does not, attempt [k] is the
    last one, the frame has been released after each of the [k] retried
    attempts, and when that answer is a timeout or a driver error both
    [AcquireNextFrame] and [CaptureFrame] return false.  If all four answers
    ask for a retry, the call gives up after the fourth with false. *)
Theorem DX11_acquisition_bounded (c : DX11.ScreenCaptureDX11) (os : DX11.CaptureEnv) :
  (DX11.count DX11.Call_AcquireNextFrame (DX11.CaptureFrame c os).2 ≤ 4)%nat ∧
  (∀ k : nat, (k < 4)%nat →
     (∀ j, (j < k)%nat → DX11.is_retry (DX11.AcquireNextFrame_answer os j) = true) →
     DX11.is_retry (DX11.AcquireNextFrame_answer os k) = false →
     DX11.count DX11.Call_AcquireNextFrame (DX11.AcquireNextFrame os).2 = S k ∧
     DX11.count DX11.Call_ReleaseFrame (DX11.AcquireNextFrame os).2 = k ∧
     (DX11.is_failure (DX11.AcquireNextFrame_answer os k) = true →
      (DX11.AcquireNextFrame os).1.1 = false ∧ (DX11.CaptureFrame c os).1.1 = false)) ∧
  ((∀ j, (j < 4)%nat → DX11.is_retry (DX11.AcquireNextFrame_answer os j) = true) →
     DX11.count DX11.Call_AcquireNextFrame (DX11.AcquireNextFrame os).2 = 4%nat ∧
     DX11.count DX11.Call_ReleaseFrame (DX11.AcquireNextFrame os).2 = 4%nat ∧
     (DX11.AcquireNextFrame os).1.1 = false ∧ (DX11.CaptureFrame c os).1.1 = false).
Proof.
  split; [|split].
  - etrans; [apply CaptureFrame_count_acquire | apply AcquireNextFrame_count].
  - intros k Hk Hpre Hstop.
    assert (Hloop : DX11.acquire_loop 4 0 os false None =
      (DX11.acq_succeeded (DX11.AcquireNextFrame_answer os k),
       DX11.acq_resource (DX11.AcquireNextFrame_answer os k),
       concat (replicate k DX11.retried) ++ [DX11.Call_AcquireNextFrame]))
      by exact (acquire_loop_stops os k 4 0 false None Hk Hpre Hstop).
    assert (Htr : (DX11.AcquireNextFrame os).2 =
                  concat (replicate k DX11.retried) ++ [DX11.Call_AcquireNextFrame]).
    { unfold DX11.AcquireNextFrame. rewrite Hloop. by repeat case_match. }
    rewrite Htr, !count_app, !count_retried.
    split; [unfold DX11.count; simpl; lia|].
    split; [unfold DX11.count; simpl; lia|].
    intros Hfail. unfold DX11.is_failure in Hfail.
    assert (Hres : (DX11.AcquireNextFrame os).1.1 = false).
    { unfold DX11.AcquireNextFrame. rewrite Hloop.
      destruct (DX11.acq_succeeded (DX11.AcquireNextFrame_answer os k)); done. }
    split; [done|]. by apply CaptureFrame_needs_frame.
  - intros Hall.
    assert (Hloop := acquire_loop_exhausted os 4 0 false None ltac:(lia) Hall).
    assert (Hacq : DX11.AcquireNextFrame os =
                   (false, None, concat (replicate 4 DX11.retried))).
    { unfold DX11.AcquireNextFrame. by rewrite Hloop. }
    rewrite Hacq. repeat split; try done.
    apply CaptureFrame_needs_frame. by rewrite Hacq.
Qed.

Lemma DX11_acquisition_bounded_witness :
  DX11.count DX11.Call_AcquireNextFrame
    (DX11.AcquireNextFrame Examples.dx_env_retry_timeout).2 = 2%nat ∧
  DX11.count DX11.Call_ReleaseFrame
    (DX11.AcquireNextFrame Examples.dx_env_retry_timeout).2 = 1%nat ∧
  (DX11.AcquireNextFrame Examples.dx_env_retry_timeout).1.1 = false ∧
  (DX11.CaptureFrame Examples.dx_started Examples.dx_env_retry_timeout).1.1 = false.
Proof.
  destruct (DX11_acquisition_bounded Examples.dx_started
              Examples.dx_env_retry_timeout) as (_ & Hstop & _).
  destruct (Hstop 1%nat) as (Hacq & Hrel & Hfail).
  - lia.
  - intros j Hj. assert (j = 0%nat) as -> by lia. reflexivity.
  - reflexivity.
  - destruct Hfail as [H1 H2]; [reflexivity|]. repeat split; assumption.
Defined.

(** *** Frame metadata *)

(** [InitializeDevice] touches only the device and its context, and when it
    fails it has released and cleared both. *)
Lemma try_drivers_metadata (os : DX11.StartupEnv) (ds : list DX11.D3D_DRIVER_TYPE) :
  ∀ c : DX11.ScreenCaptureDX11,
    let c' := (DX11.try_drivers ds c os).1.2 in
    DX11.m_frameWidth c' = DX11.m_frameWidth c ∧
    DX11.m_frameHeight c' = DX11.m_frameHeight c ∧
    DX11.m_frameDepth c' = DX11.m_frameDepth c ∧
    DX11.m_frameStride c' = DX11.m_frameStride c ∧
    DX11.m_outputDuplication c' = DX11.m_outputDuplication c ∧
    ((DX11.try_drivers ds c os).1.1 = false →
     ds ≠ [] → DX11.m_device c' = None ∧ DX11.m_deviceContext c' = None).
Proof.
  induction ds as [|d ds IH]; intros c; simpl; [done|].
  destruct (DX11.D3D11CreateDevice os d) as [ok dev ctx]. simpl.
  destruct (ok && negb (is_null dev) && negb (is_null ctx)); simpl; [done|].
  specialize (IH (DX11.set_device (DX11.set_device c dev ctx) None None)).
  destruct (DX11.try_drivers ds _ os) as [[ok' c'] tr] eqn:E. simpl in *.
  destruct IH as (-> & -> & -> & -> & -> & IH).
  split_and!; try done. intros Hok _.
  destruct ds as [|d' ds']; [by simplify_eq/=|]. by apply IH.
Qed.

(** [Startup] clears the metadata, whether it succeeds or not. *)
Lemma DX11_Startup_metadata (c : DX11.ScreenCaptureDX11) (os : DX11.StartupEnv) :
  let c' := (DX11.Startup c os).1.2 in
  DX11.m_frameWidth c' = 0 ∧ DX11.m_frameHeight c' = 0 ∧
  DX11.m_frameDepth c' = 0 ∧ DX11.m_frameStride c' = 0.
Proof.
  unfold DX11.Startup, DX11.InitializeDevice, DX11.StartOutputDuplication.
  pose proof (try_drivers_metadata os DX11.drivers
                (DX11.set_metadata (DX11.set_frameBuffer c []) 0 0 0 0)) as H.
  destruct (DX11.try_drivers _ _ os) as [[ok c1] tr1]. simpl in H.
  destruct H as (Hw & Hh & Hd & Hs & _).
  destruct ok; simpl; [|done].
  repeat (case_match; simplify_eq/=); done.
Qed.

(** The metadata is written on one path only, the one on which
    [CopyStagingTextureToMemory] returns true. *)
Lemma DX11_CaptureFrame_false (c : DX11.ScreenCaptureDX11) (os : DX11.CaptureEnv) :
  (DX11.CaptureFrame c os).1.1 = false →
  let c' := (DX11.CaptureFrame c os).1.2 in
  DX11.m_frameWidth c' = 0 ∧ DX11.m_frameHeight c' = 0 ∧
  DX11.m_frameDepth c' = 0 ∧ DX11.m_frameStride c' = 0.
Proof.
  unfold DX11.CaptureFrame, DX11.CreateStagingTexture,
    DX11.CopyStagingTextureToMemory.
  destruct (DX11.AcquireNextFrame os) as [[acquired image] tr1].
  destruct (DX11.CreateTexture2D os) as [created tex].
  repeat (case_match; simplify_eq/=); done.
Qed.

Lemma DX11_uncaptured_metadata (c : DX11.ScreenCaptureDX11) :
  DX11.uncaptured c →
  DX11.m_frameWidth c = 0 ∧ DX11.m_frameHeight c = 0 ∧
  DX11.m_frameDepth c = 0 ∧ DX11.m_frameStride c = 0.
Proof.
  induction 1 as [|c os|c _ IH|c os _ _ Hfail].
  - done.
  - apply DX11_Startup_metadata.
  - exact IH.
  - by apply DX11_CaptureFrame_false.
Qed.

(** [CaptureFrame] fails at once while one of the three interfaces it needs
    is null. *)
Lemma DX11_CaptureFrame_not_ready (c : DX11.ScreenCaptureDX11) (os : DX11.CaptureEnv) :
  is_null (DX11.m_device c) || is_null (DX11.m_deviceContext c)
    || is_null (DX11.m_outputDuplication c) = true →
  (DX11.CaptureFrame c os).1.1 = false.
Proof. intros H. unfold DX11.CaptureFrame. simpl. by rewrite H. Qed.

(** A failed [Startup] of a new object leaves one of those three interfaces
    null, unless a failing [DuplicateOutput] stored a pointer all the same. *)
Lemma DX11_failed_Startup_not_ready (os : DX11.StartupEnv) :
  (DX11.Startup DX11.fresh os).1.1 = false →
  (DX11.succeeded (DX11.DuplicateOutput os) = false →
   DX11.out_ptr (DX11.DuplicateOutput os) = None) →
  let c' := (DX11.Startup DX11.fresh os).1.2 in
  is_null (DX11.m_device c') || is_null (DX11.m_deviceContext c')
    || is_null (DX11.m_outputDuplication c') = true.
Proof.
  unfold DX11.Startup, DX11.InitializeDevice, DX11.StartOutputDuplication.
  pose proof (try_drivers_metadata os DX11.drivers
                (DX11.set_metadata (DX11.set_frameBuffer DX11.fresh []) 0 0 0 0)) as H.
  destruct (DX11.try_drivers _ _ os) as [[ok c1] tr1]. simpl in H.
  destruct H as (_ & _ & _ & _ & Hdup & Hdev).
  destruct ok; simpl.
  - destruct (DX11.DuplicateOutput os) as [ok2 p]. simpl.
    intros Hfail Hcom.
    destruct ok2, p as [p|]; try specialize (Hcom eq_refl);
      repeat (case_match; simplify_eq/=); rewrite ?Hdup, ?orb_true_r; done.
  - intros _ _. destruct (Hdev eq_refl ltac:(done)) as [Hd Hc]. by rewrite Hd.
Qed.

(** C6: when [CaptureFrame] returns false, for whichever reason, the width,
    height, stride and depth it leaves are zero. *)
Theorem DX11_CaptureFrame_failure_clears_metadata
    (c : DX11.ScreenCaptureDX11) (os : DX11.CaptureEnv) :
  (DX11.CaptureFrame c os).1.1 = false →
  DX11.GetFrameWidth (DX11.CaptureFrame c os).1.2 = 0 ∧
  DX11.GetFrameHeight (DX11.CaptureFrame c os).1.2 = 0 ∧
  DX11.GetFrameStride (DX11.CaptureFrame c os).1.2 = 0 ∧
  DX11.GetFrameDepth (DX11.CaptureFrame c os).1.2 = 0.
Proof.
  intros Hfail.
  destruct (DX11_CaptureFrame_false c os Hfail) as (Hw & Hh & Hd & Hs).
  by split_and!.
Qed.

Lemma DX11_CaptureFrame_failure_clears_metadata_witness :
  DX11.GetFrameWidth (DX11.CaptureFrame Examples.dx_started Examples.dx_env_timeout).1.2 = 0 ∧
  DX11.GetFrameHeight (DX11.CaptureFrame Examples.dx_started Examples.dx_env_timeout).1.2 = 0 ∧
  DX11.GetFrameStride (DX11.CaptureFrame Examples.dx_started Examples.dx_env_timeout).1.2 = 0 ∧
  DX11.GetFrameDepth (DX11.CaptureFrame Examples.dx_started Examples.dx_env_timeout).1.2 = 0.
Proof.
  apply (DX11_CaptureFrame_failure_clears_metadata
           Examples.dx_started Examples.dx_env_timeout).
  reflexivity.
Defined.

(** *** Releasing the acquired frame *)

(** Once the format check has passed, [ReleaseFrame] is the last call of
    [CaptureFrame], whether the staging texture could be created and read
    or not. *)
Lemma DX11_CaptureFrame_releases_supported
    (c : DX11.ScreenCaptureDX11) (os : DX11.CaptureEnv)
    (image : handle) (tr1 : list DX11.event) :
  is_null (DX11.m_device c) || is_null (DX11.m_deviceContext c)
    || is_null (DX11.m_outputDuplication c) = false →
  DX11.AcquireNextFrame os = (true, Some image, tr1) →
  DX11.IsFormat32bit (DX11.desc_Format os) = true →
  last (DX11.CaptureFrame c os).2 = Some DX11.Call_ReleaseFrame.
Proof.
  intros Hready Hacq Hfmt.
  unfold DX11.CaptureFrame, DX11.CreateStagingTexture,
    DX11.CopyStagingTextureToMemory. rewrite Hacq. simpl.
  rewrite Hready, Hfmt. simpl.
  destruct (DX11.CreateTexture2D os) as [created [tex|]].
  all: repeat (case_match; simplify_eq/=); by rewrite last_app.
Qed.

(** C1 (the code breaks it): a frame is acquired at the first attempt and
    the output is in an RGBA format.  [CaptureFrame] returns false after the
    two calls [AcquireNextFrame] and [GetDesc]: the frame is not released.
    With a BGRA format the same capture releases it once. *)
Theorem DX11_format_mismatch_keeps_frame :
  DX11.AcquireNextFrame Examples.dx_env_rgba
    = (true, Some 6%positive, [DX11.Call_AcquireNextFrame]) ∧
  DX11.CaptureFrame Examples.dx_started Examples.dx_env_rgba
    = (false, DX11.set_metadata Examples.dx_started 0 0 0 0,
       [DX11.Call_AcquireNextFrame; DX11.Call_GetDesc]) ∧
  DX11.count DX11.Call_ReleaseFrame
    (DX11.CaptureFrame Examples.dx_started Examples.dx_env_rgba).2 = 0%nat ∧
  DX11.count DX11.Call_ReleaseFrame
    (DX11.CaptureFrame Examples.dx_started Examples.dx_env_bgra).2 = 1%nat.
Proof. repeat split; reflexivity. Qed.

(** *** The format check *)

Lemma IsFormat32bit_spec (fmt : Z) :
  DX11.IsFormat32bit fmt = true ↔
  fmt ∈ [DX11.DXGI_FORMAT_B8G8R8A8_UNORM; DX11.DXGI_FORMAT_B8G8R8X8_UNORM;
         DX11.DXGI_FORMAT_B8G8R8A8_TYPELESS; DX11.DXGI_FORMAT_B8G8R8A8_UNORM_SRGB;
         DX11.DXGI_FORMAT_B8G8R8X8_TYPELESS; DX11.DXGI_FORMAT_B8G8R8X8_UNORM_SRGB].
Proof.
  unfold DX11.IsFormat32bit. rewrite !elem_of_cons, elem_of_nil.
  repeat match goal with
         | |- context [?a =? ?b] => destruct (Z.eqb_spec a b)
         end; simpl; split; intros; try done; tauto.
Qed.

(** C8: in a started session whose acquisition has delivered a texture, the
    format is accepted exactly when it is one of the six B8G8R8A8 and
    B8G8R8X8 formats.  For any other format [CaptureFrame] returns false
    right after [GetDesc], makes no further call and leaves the pixel buffer
    as it was; for an accepted format the next call is [CreateTexture2D],
    the creation of the staging texture. *)
Theorem DX11_CaptureFrame_format_check
    (c : DX11.ScreenCaptureDX11) (os : DX11.CaptureEnv)
    (image : handle) (tr1 : list DX11.event) :
  DX11.m_device c ≠ None → DX11.m_deviceContext c ≠ None →
  DX11.m_outputDuplication c ≠ None →
  DX11.AcquireNextFrame os = (true, Some image, tr1) →
  (DX11.IsFormat32bit (DX11.desc_Format os) = true ↔
   DX11.desc_Format os ∈
     [DX11.DXGI_FORMAT_B8G8R8A8_UNORM; DX11.DXGI_FORMAT_B8G8R8X8_UNORM;
      DX11.DXGI_FORMAT_B8G8R8A8_TYPELESS; DX11.DXGI_FORMAT_B8G8R8A8_UNORM_SRGB;
      DX11.DXGI_FORMAT_B8G8R8X8_TYPELESS; DX11.DXGI_FORMAT_B8G8R8X8_UNORM_SRGB]) ∧
  (DX11.IsFormat32bit (DX11.desc_Format os) = false →
   (DX11.CaptureFrame c os).1.1 = false ∧
   DX11.m_frameBuffer (DX11.CaptureFrame c os).1.2 = DX11.m_frameBuffer c ∧
   (DX11.CaptureFrame c os).2 = tr1 ++ [DX11.Call_GetDesc]) ∧
  (DX11.IsFormat32bit (DX11.desc_Format os) = true →
   ∃ tr, (DX11.CaptureFrame c os).2 =
         tr1 ++ [DX11.Call_GetDesc; DX11.Call_CreateTexture2D] ++ tr).
Proof.
  intros Hdev Hctx Hdup Hacq.
  split; [apply IsFormat32bit_spec|].
  unfold DX11.CaptureFrame, DX11.CreateStagingTexture,
    DX11.CopyStagingTextureToMemory. rewrite Hacq. simpl.
  destruct (DX11.m_device c), (DX11.m_deviceContext c) eqn:Ectx,
    (DX11.m_outputDuplication c); try done. simpl.
  split.
  - intros ->. simpl. by repeat split.
  - intros ->. simpl.
    destruct (DX11.CreateTexture2D os) as [created [tex|]].
    all: repeat (case_match; simplify_eq/=); rewrite <- ?app_assoc; simpl;
      eexists; reflexivity.
Qed.

Lemma DX11_CaptureFrame_format_check_witness :
  (DX11.CaptureFrame Examples.dx_started Examples.dx_env_rgba).1.1 = false ∧
  DX11.m_frameBuffer (DX11.CaptureFrame Examples.dx_started Examples.dx_env_rgba).1.2
    = DX11.m_frameBuffer Examples.dx_started ∧
  (DX11.CaptureFrame Examples.dx_started Examples.dx_env_rgba).2
    = [DX11.Call_AcquireNextFrame] ++ [DX11.Call_GetDesc].
Proof.
  destruct (DX11_CaptureFrame_format_check Examples.dx_started Examples.dx_env_rgba
              6%positive [DX11.Call_AcquireNextFrame]) as (_ & Hreject & _).
  - simpl. discriminate.
  - simpl. discriminate.
  - simpl. discriminate.
  - reflexivity.
  - apply Hreject. reflexivity.
Defined.

(** *** Shutdown *)

(** C9 as stated fails: with all four interfaces held, [Shutdown] releases
    the device before the device context, so its calls are not in the order
    staging texture, duplication, device context, device. *)
Lemma DX11_Shutdown_claimed_order_fails :
  (DX11.Shutdown Examples.dx_full).2 =
    [DX11.Release_stagingTexture; DX11.Release_outputDuplication;
     DX11.Release_device; DX11.Release_deviceContext] ∧
  ¬ ((DX11.Shutdown Examples.dx_full).2 `sublist_of`
       [DX11.Release_stagingTexture; DX11.Release_outputDuplication;
        DX11.Release_deviceContext; DX11.Release_device]).
Proof.
  split; [reflexivity|].
  change ((DX11.Shutdown Examples.dx_full).2) with
    [DX11.Release_stagingTexture; DX11.Release_outputDuplication;
     DX11.Release_device; DX11.Release_deviceContext].
  intros H.
  repeat (apply sublist_cons_r in H as [H | (? & ? & H)]; simplify_eq).
  all: try (apply sublist_nil_r in H; simplify_eq).
Qed.

(** C9, amended: [Shutdown] releases the interfaces it holds in the order
    staging texture, duplication, device, device context, each one exactly
    if it is held; it clears the pixel buffer and all four pointers; a
    second [Shutdown] changes nothing and releases nothing, and so does a
    [Shutdown] of a new object. *)
Theorem DX11_Shutdown_order (c : DX11.ScreenCaptureDX11) :
  (DX11.Shutdown c).2 =
    DX11.release (DX11.m_stagingTexture c) DX11.Release_stagingTexture ++
    DX11.release (DX11.m_outputDuplication c) DX11.Release_outputDuplication ++
    DX11.release (DX11.m_device c) DX11.Release_device ++
    DX11.release (DX11.m_deviceContext c) DX11.Release_deviceContext ∧
  (DX11.Shutdown c).2 `sublist_of`
    [DX11.Release_stagingTexture; DX11.Release_outputDuplication;
     DX11.Release_device; DX11.Release_deviceContext] ∧
  DX11.m_frameBuffer (DX11.Shutdown c).1 = [] ∧
  DX11.m_stagingTexture (DX11.Shutdown c).1 = None ∧
  DX11.m_outputDuplication (DX11.Shutdown c).1 = None ∧
  DX11.m_device (DX11.Shutdown c).1 = None ∧
  DX11.m_deviceContext (DX11.Shutdown c).1 = None ∧
  DX11.Shutdown (DX11.Shutdown c).1 = ((DX11.Shutdown c).1, []) ∧
  DX11.Shutdown DX11.fresh = (DX11.fresh, []).
Proof.
  split; [reflexivity|]. split.
  - unfold DX11.Shutdown, DX11.release. simpl.
    destruct (DX11.m_stagingTexture c), (DX11.m_outputDuplication c),
      (DX11.m_device c), (DX11.m_deviceContext c); simpl;
      repeat first [ apply sublist_skip | apply sublist_cons | apply sublist_nil ].
  - repeat split; reflexivity.
Qed.

(** ** The facade *)

(** In a reachable session without a selected mode, no backend is installed. *)
Lemma Facade_reachable_inv (f : Facade.ScreenCapture) :
  Facade.reachable f →
  Facade.m_mode f = Facade.ScreenCaptureMode_Invalid →
  Facade.m_capgdi f = None ∧ Facade.m_capdx11 f = None.
Proof.
  induction 1 as [|f mode gos dos _ IH|f _ _|f b os _ IH]; [done| |done|].
  - unfold Facade.Startup.
    destruct (decide (Facade.m_mode f = Facade.ScreenCaptureMode_Invalid)) as [Hm|Hm].
    + destruct (IH Hm) as [Hg Hd].
      destruct mode; simpl; repeat case_match; simplify_eq/=; done.
    + destruct mode; simpl; repeat case_match; simplify_eq/=; done.
  - unfold Facade.CaptureFrame.
    repeat case_match; simplify_eq/=; try done; intros Hm; by destruct (IH Hm).
Qed.

(** [Startup] on a reachable session installs the requested backend, newly
    constructed and started, next to no other, and returns what the
    backend's [Startup] returned. *)
Lemma Facade_Startup_shape (f : Facade.ScreenCapture) (mode : Facade.ScreenCaptureMode)
    (gos : GDI.StartupEnv) (dos : DX11.StartupEnv) :
  Facade.reachable f →
  Facade.Startup f mode gos dos =
    match mode with
    | Facade.ScreenCaptureMode_GDI =>
        ((GDI.Startup GDI.fresh gos).1,
         Facade.mkCap mode (Some (GDI.Startup GDI.fresh gos).2) None,
         (Facade.Startup f mode gos dos).2)
    | Facade.ScreenCaptureMode_DX11 =>
        ((DX11.Startup DX11.fresh dos).1.1,
         Facade.mkCap mode None (Some (DX11.Startup DX11.fresh dos).1.2),
         (Facade.Startup f mode gos dos).2)
    | Facade.ScreenCaptureMode_Invalid =>
        (false, Facade.mkCap mode None None, (Facade.Startup f mode gos dos).2)
    end.
Proof.
  intros Hr. unfold Facade.Startup.
  destruct (decide (Facade.m_mode f = Facade.ScreenCaptureMode_Invalid)) as [Hm|Hm].
  - destruct (Facade_reachable_inv f Hr Hm) as [Hg Hd].
    destruct mode; simpl; rewrite ?Hg, ?Hd; try done.
    + by destruct (GDI.Startup GDI.fresh gos).
    + by destruct (DX11.Startup DX11.fresh dos) as [[??]?].
  - destruct mode; simpl; try done.
    + by destruct (GDI.Startup GDI.fresh gos).
    + by destruct (DX11.Startup DX11.fresh dos) as [[??]?].
Qed.

(** A session that a [CaptureFrame] leaves as it is, is left as it is by
    any number of them. *)
Lemma Facade_CaptureFrames_fixed (f : Facade.ScreenCapture)
    (calls : list (option (list byte) * DX11.CaptureEnv)) :
  (∀ b os, (Facade.CaptureFrame f b os).1.2 = f) →
  Facade.CaptureFrames f calls = f.
Proof.
  intros Hfix. unfold Facade.CaptureFrames.
  induction calls as [|[b os] calls IH]; [done|].
  simpl. by rewrite Hfix.
Qed.

(** While one of the three interfaces is null, [CaptureFrame] clears the
    metadata, makes no call and changes nothing else. *)
Lemma DX11_CaptureFrame_not_ready_state (c : DX11.ScreenCaptureDX11)
    (os : DX11.CaptureEnv) :
  is_null (DX11.m_device c) || is_null (DX11.m_deviceContext c)
    || is_null (DX11.m_outputDuplication c) = true →
  DX11.CaptureFrame c os = (false, DX11.set_metadata c 0 0 0 0, []).
Proof. intros H. unfold DX11.CaptureFrame. simpl. by rewrite H. Qed.

(** C3 as stated fails: on a new session, [Startup] in GDI mode with a
    failing [CreateCompatibleDC] returns false, yet the session is not in
    the no-backend-selected state, and [GetFrameWidth] returns 1920, not the
    0 of a session without backend. *)
Lemma Facade_failed_Startup_keeps_backend :
  (Facade.Startup Facade.fresh Facade.ScreenCaptureMode_GDI
     Examples.gdi_no_dc Examples.dx_no_device).1.1 = false ∧
  ¬ Facade.no_backend
      (Facade.Startup Facade.fresh Facade.ScreenCaptureMode_GDI
         Examples.gdi_no_dc Examples.dx_no_device).1.2 ∧
  Facade.GetFrameWidth
      (Facade.Startup Facade.fresh Facade.ScreenCaptureMode_GDI
         Examples.gdi_no_dc Examples.dx_no_device).1.2 = 1920 ∧
  Facade.GetFrameWidth Facade.fresh = 0.
Proof.
  split_and!; try reflexivity.
  intros (Hm & _). discriminate Hm.
Qed.

(** C3, amended: when [Startup mode] on a reachable session returns false,
    the mode member is [mode]; for the invalid mode the session is in the
    no-backend-selected state, and for the GDI and DX11 modes the newly
    constructed backend stays installed, as its failed [Startup] left it,
    next to no other.  The depth and the stride then read 0, for the invalid
    and DX11 modes so do the width and the height, and every later
    [CaptureFrame] returns false (for DX11: provided a failing
    [DuplicateOutput] stored no pointer).  A [CaptureFrame] in this state
    makes no native call and leaves the session as it is: whatever number of
    [CaptureFrame] calls the client makes, the session is still the one the
    failed [Startup] left, with the same backend installed, and the next
    [CaptureFrame] returns false again. *)
Theorem Facade_failed_Startup (f : Facade.ScreenCapture)
    (mode : Facade.ScreenCaptureMode) (gos : GDI.StartupEnv) (dos : DX11.StartupEnv) :
  Facade.reachable f →
  (Facade.Startup f mode gos dos).1.1 = false →
  Facade.m_mode (Facade.Startup f mode gos dos).1.2 = mode ∧
  (mode = Facade.ScreenCaptureMode_Invalid →
   Facade.no_backend (Facade.Startup f mode gos dos).1.2) ∧
  (mode = Facade.ScreenCaptureMode_GDI →
   Facade.m_capgdi (Facade.Startup f mode gos dos).1.2
     = Some (GDI.Startup GDI.fresh gos).2 ∧
   Facade.m_capdx11 (Facade.Startup f mode gos dos).1.2 = None) ∧
  (mode = Facade.ScreenCaptureMode_DX11 →
   Facade.m_capgdi (Facade.Startup f mode gos dos).1.2 = None ∧
   Facade.m_capdx11 (Facade.Startup f mode gos dos).1.2
     = Some (DX11.Startup DX11.fresh dos).1.2) ∧
  Facade.GetFrameDepth (Facade.Startup f mode gos dos).1.2 = 0 ∧
  Facade.GetFrameStride (Facade.Startup f mode gos dos).1.2 = 0 ∧
  (mode ≠ Facade.ScreenCaptureMode_GDI →
   Facade.GetFrameWidth (Facade.Startup f mode gos dos).1.2 = 0 ∧
   Facade.GetFrameHeight (Facade.Startup f mode gos dos).1.2 = 0) ∧
  ((DX11.succeeded (DX11.DuplicateOutput dos) = false →
    DX11.out_ptr (DX11.DuplicateOutput dos) = None) →
   ∀ b os,
     (Facade.CaptureFrame (Facade.Startup f mode gos dos).1.2 b os).1.1 = false) ∧
  ((DX11.succeeded (DX11.DuplicateOutput dos) = false →
    DX11.out_ptr (DX11.DuplicateOutput dos) = None) →
   ∀ calls b os,
     Facade.CaptureFrames (Facade.Startup f mode gos dos).1.2 calls
       = (Facade.Startup f mode gos dos).1.2 ∧
     Facade.CaptureFrame
       (Facade.CaptureFrames (Facade.Startup f mode gos dos).1.2 calls) b os
       = (false, (Facade.Startup f mode gos dos).1.2, [])).
Proof.
  intros Hr. rewrite (Facade_Startup_shape f mode gos dos Hr).
  destruct mode; simpl; intros Hfail.
  - split_and!; try done.
    intros _ calls b os. by rewrite Facade_CaptureFrames_fixed.
  - destruct (GDI_Startup_failed GDI.fresh gos Hfail) as (Hdc & Hd & Hs).
    assert (Hstep : ∀ b os,
      Facade.CaptureFrame
        (Facade.mkCap Facade.ScreenCaptureMode_GDI
           (Some (GDI.Startup GDI.fresh gos).2) None) b os
      = (false,
         Facade.mkCap Facade.ScreenCaptureMode_GDI
           (Some (GDI.Startup GDI.fresh gos).2) None, [])).
    { intros b os. unfold Facade.CaptureFrame, GDI.CaptureFrame. simpl.
      by rewrite Hdc. }
    unfold Facade.GetFrameDepth, Facade.GetFrameStride, Facade.dispatch,
      GDI.GetFrameDepth, GDI.GetFrameStride. simpl.
    rewrite Hd, Hs. split_and!; try done.
    + intros _ b os. by rewrite Hstep.
    + intros _ calls b os.
      rewrite Facade_CaptureFrames_fixed.
      * split; [done|]. by rewrite Hstep.
      * intros b' os'. by rewrite Hstep.
  - destruct (DX11_Startup_metadata DX11.fresh dos) as (Hw & Hh & Hd & Hs).
    assert (Hstep :
      (DX11.succeeded (DX11.DuplicateOutput dos) = false →
       DX11.out_ptr (DX11.DuplicateOutput dos) = None) →
      ∀ b os,
      Facade.CaptureFrame
        (Facade.mkCap Facade.ScreenCaptureMode_DX11 None
           (Some (DX11.Startup DX11.fresh dos).1.2)) b os
      = (false,
         Facade.mkCap Facade.ScreenCaptureMode_DX11 None
           (Some (DX11.Startup DX11.fresh dos).1.2), [])).
    { intros Hcom b os.
      pose proof (DX11_failed_Startup_not_ready dos Hfail Hcom) as Hnull.
      unfold Facade.CaptureFrame. simpl.
      rewrite (DX11_CaptureFrame_not_ready_state _ os Hnull).
      revert Hw Hh Hd Hs. simpl.
      destruct (DX11.Startup DX11.fresh dos).1.2; simpl.
      by intros -> -> -> ->. }
    unfold Facade.GetFrameDepth, Facade.GetFrameStride, Facade.GetFrameWidth,
      Facade.GetFrameHeight, Facade.dispatch. simpl.
    split_and!; try done.
    + intros Hcom b os. by rewrite (Hstep Hcom).
    + intros Hcom calls b os.
      rewrite Facade_CaptureFrames_fixed.
      * split; [done|]. by rewrite (Hstep Hcom).
      * intros b' os'. by rewrite (Hstep Hcom).
Qed.

Lemma Facade_failed_Startup_witness :
  Facade.m_capgdi
    (Facade.Startup Facade.fresh Facade.ScreenCaptureMode_GDI
       Examples.gdi_no_dc Examples.dx_no_device).1.2
  = Some (GDI.Startup GDI.fresh Examples.gdi_no_dc).2 ∧
  Facade.m_capdx11
    (Facade.Startup Facade.fresh Facade.ScreenCaptureMode_GDI
       Examples.gdi_no_dc Examples.dx_no_device).1.2 = None.
Proof.
  destruct (Facade_failed_Startup Facade.fresh Facade.ScreenCaptureMode_GDI
              Examples.gdi_no_dc Examples.dx_no_device)
    as (_ & _ & Hgdi & _).
  - apply Facade.reachable_fresh.
  - reflexivity.
  - apply Hgdi. reflexivity.
Defined.

(** In a session of the second kind no GDI backend is installed and the
    DX11 backend, if any, has not captured a frame. *)
Lemma Facade_uncaptured_inv (f : Facade.ScreenCapture) :
  Facade.uncaptured f →
  Facade.m_capgdi f = None ∧
  ∀ d, Facade.m_capdx11 f = Some d → DX11.uncaptured d.
Proof.
  induction 1 as [|f mode gos dos Hr Hmode|f _|f b os _ IH Hfail].
  - by split.
  - rewrite (Facade_Startup_shape f mode gos dos Hr).
    destruct mode; simpl; [by split|done|].
    split; [done|]. intros d [= <-]. apply DX11.uncaptured_Startup.
  - by split.
  - destruct IH as [Hg Hd]. revert Hfail. unfold Facade.CaptureFrame. rewrite Hg.
    destruct (Facade.m_capdx11 f) as [d|] eqn:Ed;
      [|simpl; intros _; split; [done|]; intros d; by rewrite Ed].
    specialize (Hd d eq_refl).
    pose proof (DX11.uncaptured_CaptureFrame d os Hd) as Hstep.
    destruct (DX11.CaptureFrame d os) as [[ok d'] tr]. simpl in *.
    intros ->. split; [done|]. intros d'' [= <-]. by apply Hstep.
Qed.

(** C5 as stated fails for the GDI backend: right after a successful
    [Startup] on a 1920x1080 display, before any [CaptureFrame], the four
    accessors return 1920, 1080, 32 and 7680, directly and through the
    facade. *)
Lemma metadata_nonzero_after_GDI_Startup :
  (GDI.Startup GDI.fresh Examples.gdi_ok).1 = true ∧
  GDI.GetFrameWidth (GDI.Startup GDI.fresh Examples.gdi_ok).2 = 1920 ∧
  GDI.GetFrameHeight (GDI.Startup GDI.fresh Examples.gdi_ok).2 = 1080 ∧
  GDI.GetFrameDepth (GDI.Startup GDI.fresh Examples.gdi_ok).2 = 32 ∧
  GDI.GetFrameStride (GDI.Startup GDI.fresh Examples.gdi_ok).2 = 7680 ∧
  (Facade.Startup Facade.fresh Facade.ScreenCaptureMode_GDI
     Examples.gdi_ok Examples.dx_no_device).1.1 = true ∧
  Facade.GetFrameWidth
    (Facade.Startup Facade.fresh Facade.ScreenCaptureMode_GDI
       Examples.gdi_ok Examples.dx_no_device).1.2 = 1920.
Proof. split_and!; reflexivity. Qed.

(** C5, amended: for the DX11 backend, directly and through the facade, the
    four accessors return 0 as long as no frame has been captured since the
    object was constructed or since its latest [Startup].  For the GDI
    backend they return 0 on a new object, and a successful [Startup]
    already sets them: width and height of the screen, depth 32 and the
    stride of four bytes per pixel. *)
Theorem metadata_before_first_frame :
  (∀ d, DX11.uncaptured d →
     DX11.GetFrameWidth d = 0 ∧ DX11.GetFrameHeight d = 0 ∧
     DX11.GetFrameDepth d = 0 ∧ DX11.GetFrameStride d = 0) ∧
  (∀ f, Facade.uncaptured f →
     Facade.GetFrameWidth f = 0 ∧ Facade.GetFrameHeight f = 0 ∧
     Facade.GetFrameDepth f = 0 ∧ Facade.GetFrameStride f = 0) ∧
  (GDI.GetFrameWidth GDI.fresh = 0 ∧ GDI.GetFrameHeight GDI.fresh = 0 ∧
   GDI.GetFrameDepth GDI.fresh = 0 ∧ GDI.GetFrameStride GDI.fresh = 0) ∧
  (∀ c os, (GDI.Startup c os).1 = true →
     let width := if 1 <? GDI.SM_CMONITORS os
                  then GDI.SM_CXVIRTUALSCREEN os else GDI.SM_CXSCREEN os in
     let height := if 1 <? GDI.SM_CMONITORS os
                   then GDI.SM_CYVIRTUALSCREEN os else GDI.SM_CYSCREEN os in
     GDI.GetFrameWidth (GDI.Startup c os).2 = to_unsigned width ∧
     GDI.GetFrameHeight (GDI.Startup c os).2 = to_unsigned height ∧
     GDI.GetFrameDepth (GDI.Startup c os).2 = 32 ∧
     GDI.GetFrameStride (GDI.Startup c os).2 = 4 * (width mod 2 ^ 27)).
Proof.
  split_and!; try reflexivity.
  - intros d Hd. destruct (DX11_uncaptured_metadata d Hd) as (? & ? & ? & ?). done.
  - intros f Hf. destruct (Facade_uncaptured_inv f Hf) as [Hg Hd].
    unfold Facade.GetFrameWidth, Facade.GetFrameHeight, Facade.GetFrameDepth,
      Facade.GetFrameStride, Facade.dispatch. rewrite Hg.
    destruct (Facade.m_capdx11 f) as [d|]; [|done].
    destruct (DX11_uncaptured_metadata d (Hd d eq_refl)) as (? & ? & ? & ?). done.
  - apply GDI_Startup_succeeded.
Qed.

Lemma metadata_before_first_frame_witness :
  DX11.GetFrameWidth (DX11.Startup Examples.dx_full Examples.dx_no_device).1.2 = 0 ∧
  DX11.GetFrameHeight (DX11.Startup Examples.dx_full Examples.dx_no_device).1.2 = 0 ∧
  DX11.GetFrameDepth (DX11.Startup Examples.dx_full Examples.dx_no_device).1.2 = 0 ∧
  DX11.GetFrameStride (DX11.Startup Examples.dx_full Examples.dx_no_device).1.2 = 0.
Proof.
  apply (proj1 metadata_before_first_frame
           (DX11.Startup Examples.dx_full Examples.dx_no_device).1.2).
  apply DX11.uncaptured_Startup.
Defined.

(** * Further properties of the backends and the facade *)

(** The loop only copies within the buffer: its length does not change. *)
Lemma flip_scanlines_length (n : nat) :
  ∀ (stride o1 o2 : Z) (bits : list byte),
    length (GDI.flip_scanlines n stride o1 o2 bits) = length bits.
Proof.
  induction n as [|n IH]; intros stride o1 o2 bits; simpl; [done|].
  rewrite IH. unfold mem_write. by rewrite !length_inserts.
Qed.

(** The whole loop, started at the first and the last row of a buffer of
    [h] rows of [s] bytes, mirrors the rows. *)
Lemma flip_scanlines_mirror (h s : nat) (img : list byte) (r j : nat) :
  length img = (h * s)%nat → (r < h)%nat → (j < s)%nat →
  GDI.flip_scanlines (h / 2) (Z.of_nat s) 0 (Z.of_nat ((h - 1) * s)) img
    !! (r * s + j)%nat
  = img !! ((h - 1 - r) * s + j)%nat.
Proof.
  intros Hlen Hr Hj.
  pose proof (Nat.div_mod_eq h 2) as Hdm.
  pose proof (Nat.mod_upper_bound h 2 ltac:(lia)) as Hmod.
  rewrite (flip_scanlines_rows (h / 2) 0 s h img img 0 (Z.of_nat ((h - 1) * s)));
    [ | done | by rewrite Nat.sub_0_r | lia | done | | done | done ].
  - repeat case_decide; try done. f_equal. f_equal. f_equal. lia.
  - intros r' j' Hr' Hj'. repeat case_decide; try done; lia.
Qed.

(** Running the loop twice over a buffer of [h] rows of [s] bytes gives the
    buffer back. *)
Lemma flip_scanlines_involutive (h s : nat) (img : list byte) :
  length img = (h * s)%nat →
  GDI.flip_scanlines (h / 2) (Z.of_nat s) 0 (Z.of_nat ((h - 1) * s))
    (GDI.flip_scanlines (h / 2) (Z.of_nat s) 0 (Z.of_nat ((h - 1) * s)) img)
  = img.
Proof.
  intros Hlen. apply list_eq. intros p.
  destruct (decide (p < h * s)%nat) as [Hp|Hp].
  - assert (Hs : (0 < s)%nat) by nia.
    pose proof (Nat.div_mod_eq p s) as Hdm.
    pose proof (Nat.mod_upper_bound p s ltac:(lia)) as Hmod.
    assert (Hr : (p / s < h)%nat) by (apply Nat.Div0.div_lt_upper_bound; lia).
    remember (p / s)%nat as r eqn:Er. remember (p mod s)%nat as j eqn:Ej.
    assert (Hpj : p = (r * s + j)%nat) by lia. clear Er Ej Hdm. subst p.
    rewrite flip_scanlines_mirror; try done;
      [|by rewrite flip_scanlines_length].
    rewrite flip_scanlines_mirror; try done; [|lia].
    f_equal. f_equal. f_equal. lia.
  - rewrite !lookup_ge_None_2; try done; rewrite ?flip_scanlines_length; lia.
Qed.

(** What [CaptureFrame] leaves in the pixel memory of a started session. *)
Lemma GDI_CaptureFrame_pixels (c : GDI.ScreenCaptureGDI) (b : option (list byte)) :
  GDI.m_hdcMem c ≠ None → GDI.m_width c ≠ 0 →
  0 ≤ GDI.m_stride c → 0 ≤ GDI.m_height c →
  GDI.m_height c * GDI.m_stride c < 2 ^ 32 →
  GDI.CaptureFrame c b =
    (true,
     GDI.mkGDI (GDI.m_width c) (GDI.m_height c) (GDI.m_depth c) (GDI.m_stride c)
       (GDI.m_hdcMem c) (GDI.m_dibSection c) (GDI.m_dibOld c) (GDI.m_dibBits c)
       (GDI.flip_scanlines (Z.to_nat (GDI.m_height c) / 2)
          (Z.of_nat (Z.to_nat (GDI.m_stride c))) 0
          (Z.of_nat ((Z.to_nat (GDI.m_height c) - 1) * Z.to_nat (GDI.m_stride c)))
          (match b with Some img => img | None => GDI.dib_pixels c end))).
Proof.
  intros Hdc Hw Hs Hh Hsize. unfold GDI.CaptureFrame.
  destruct (GDI.m_hdcMem c) as [hdc|]; [|done]. simpl.
  destruct (Z.eqb_spec (GDI.m_width c) 0) as [|_]; [done|]. simpl.
  f_equal. f_equal.
  assert (Hdiv : Z.to_nat (GDI.m_height c / 2) = (Z.to_nat (GDI.m_height c) / 2)%nat).
  { rewrite <- (Nat2Z.id (_ / 2)%nat). f_equal.
    rewrite Nat2Z.inj_div. by rewrite Z2Nat.id by done. }
  rewrite Hdiv, (Z2Nat.id (GDI.m_stride c)) by done.
  destruct (decide (GDI.m_height c = 0)) as [H0|H0].
  { rewrite H0. done. }
  f_equal. unfold to_unsigned.
  rewrite <- Z.mul_mod by lia. rewrite Z.mod_small by nia. nia.
Qed.

(** X1: whether [Startup] succeeds depends on the answers of the system
    only, not on the state of the object it is called on; and when it
    succeeds the whole state it leaves depends on those answers only, with
    the display context, the section and the pixel pointer all set.  A
    [Startup] after [Shutdown], or on a used object, is as good as one on a
    new object. *)
Theorem GDI_Startup_history_free (c c' : GDI.ScreenCaptureGDI) (os : GDI.StartupEnv) :
  (GDI.Startup c os).1 = (GDI.Startup c' os).1 ∧
  ((GDI.Startup c os).1 = true →
   (GDI.Startup c os).2 = (GDI.Startup c' os).2 ∧
   GDI.m_hdcMem (GDI.Startup c os).2 ≠ None ∧
   GDI.m_dibSection (GDI.Startup c os).2 ≠ None ∧
   GDI.GetFrameBuffer (GDI.Startup c os).2 ≠ None ∧
   GDI.dib_pixels (GDI.Startup c os).2 = GDI.dib_initial os).
Proof.
  unfold GDI.Startup, GDI.GetFrameBuffer.
  destruct (GDI.CreateCompatibleDC os) as [hdc|]; [|done].
  destruct (GDI.CreateDIBSection os) as [[section|] [bits|]]; simpl; try done.
Qed.

Lemma GDI_Startup_history_free_witness :
  (GDI.Startup Examples.gdi_1x3 Examples.gdi_ok).2
  = (GDI.Startup GDI.fresh Examples.gdi_ok).2.
Proof.
  apply (proj2 (GDI_Startup_history_free Examples.gdi_1x3 GDI.fresh Examples.gdi_ok)).
  reflexivity.
Defined.

(** X2: after a successful [Startup] the stride is a multiple of 4 below
    [2^29], the same read as [int] and as [unsigned], and it equals
    [width * depth / 8] exactly when the width is below [2^27]: from there on
    the 32-bit product [m_width * biBitCount] wraps and the stride is too
    small for a row. *)
Theorem GDI_Startup_stride (c : GDI.ScreenCaptureGDI) (os : GDI.StartupEnv) :
  (GDI.Startup c os).1 = true →
  GDI.GetFrameStride (GDI.Startup c os).2 mod 4 = 0 ∧
  GDI.m_stride (GDI.Startup c os).2 = GDI.GetFrameStride (GDI.Startup c os).2 ∧
  0 ≤ GDI.GetFrameStride (GDI.Startup c os).2 < 2 ^ 29 ∧
  (GDI.GetFrameStride (GDI.Startup c os).2
     = GDI.GetFrameWidth (GDI.Startup c os).2 * GDI.GetFrameDepth (GDI.Startup c os).2 / 8
   ↔ GDI.GetFrameWidth (GDI.Startup c os).2 < 2 ^ 27).
Proof.
  intros Hok.
  destruct (GDI_Startup_succeeded c os Hok) as (Hw & _ & Hd & Hs).
  rewrite Hs, Hd, Hw.
  set (W := if 1 <? GDI.SM_CMONITORS os then GDI.SM_CXVIRTUALSCREEN os
            else GDI.SM_CXSCREEN os) in *.
  pose proof (Z.mod_pos_bound W (2 ^ 27) ltac:(lia)) as Hb.
  pose proof (Z.mod_pos_bound W (2 ^ 32) ltac:(lia)) as Hb32.
  assert (Hmm : W mod 2 ^ 27 = (W mod 2 ^ 32) mod 2 ^ 27).
  { pose proof (Z.div_mod W (2 ^ 32) ltac:(lia)) as H1.
    pose proof (Z.div_mod (W mod 2 ^ 32) (2 ^ 27) ltac:(lia)) as H2.
    pose proof (Z.mod_pos_bound (W mod 2 ^ 32) (2 ^ 27) ltac:(lia)) as H3.
    symmetry.
    apply (Z.mod_unique_pos W (2 ^ 27)
             (32 * (W / 2 ^ 32) + (W mod 2 ^ 32) / 2 ^ 27)); lia. }
  split_and!; try lia.
  - rewrite Z.mul_comm. by apply Z.mod_mul.
  - revert Hs. unfold GDI.GetFrameStride, to_unsigned.
    intros Hs. rewrite <- Hs. symmetry. apply Z.mod_small.
    revert Hok. unfold GDI.Startup.
    destruct (GDI.CreateCompatibleDC os); [|done].
    destruct (GDI.CreateDIBSection os) as [section bits].
    destruct (is_null section || is_null bits); [done|]. intros _.
    cbn [snd GDI.m_stride]. fold W. rewrite stride_of_width. lia.
  - unfold to_unsigned. rewrite Hmm.
    replace (W mod 2 ^ 32 * 32 / 8) with (4 * (W mod 2 ^ 32))
      by (apply Z.div_unique_exact; lia).
    split.
    + intros Heq. assert (Hx : (W mod 2 ^ 32) mod 2 ^ 27 = W mod 2 ^ 32) by lia.
      rewrite <- Hx. apply Z.mod_pos_bound. lia.
    + intros Hlt. rewrite Z.mod_small by lia. done.
Qed.

Lemma GDI_Startup_stride_witness :
  GDI.GetFrameStride (GDI.Startup GDI.fresh Examples.gdi_ok).2 mod 4 = 0.
Proof.
  apply (GDI_Startup_stride GDI.fresh Examples.gdi_ok). reflexivity.
Defined.

(** X3: in a session with a pixel buffer, depth 32, a stride of four bytes
    per pixel and fewer than [2^32] bytes, [GetFrameBufferScanlinePtr(y)]
    points [stride * y] bytes and [GetFrameBufferPixelPtr(y, x)] points
    [stride * y + 4 * x] bytes into the buffer for every row and column of
    the frame; the four bytes of the pixel lie inside the buffer; column 0
    is the start of the scanline; and two pixels have the same pointer only
    if they are the same pixel. *)
Theorem GDI_pixel_addressing (c : GDI.ScreenCaptureGDI) (y x y' x' : Z) :
  GDI.m_dibBits c ≠ None → GDI.m_depth c = 32 →
  GDI.m_stride c = 4 * GDI.m_width c → GDI.m_width c < 2 ^ 27 →
  GDI.m_height c * GDI.m_stride c < 2 ^ 32 →
  0 ≤ y < GDI.m_height c → 0 ≤ x < GDI.m_width c →
  0 ≤ y' < GDI.m_height c → 0 ≤ x' < GDI.m_width c →
  GDI.GetFrameBufferScanlinePtr c y = Some (GDI.m_stride c * y) ∧
  GDI.GetFrameBufferPixelPtr c y x = Some (GDI.m_stride c * y + 4 * x) ∧
  GDI.m_stride c * y + 4 * x + 4 ≤ GDI.m_height c * GDI.m_stride c ∧
  GDI.GetFrameBufferPixelPtr c y 0 = GDI.GetFrameBufferScanlinePtr c y ∧
  (GDI.GetFrameBufferPixelPtr c y x = GDI.GetFrameBufferPixelPtr c y' x' →
   y = y' ∧ x = x').
Proof.
  intros Hbits Hd Hs Hw27 Hsize Hy Hx Hy' Hx'.
  assert (Hs0 : 0 ≤ GDI.m_stride c) by lia.
  assert (Hsle : GDI.m_stride c ≤ GDI.m_height c * GDI.m_stride c) by nia.
  assert (Hrow : ∀ v, 0 ≤ v < GDI.m_height c →
            0 ≤ GDI.m_stride c * v ∧
            GDI.m_stride c * v + GDI.m_stride c ≤ GDI.m_height c * GDI.m_stride c)
    by (intros v Hv; nia).
  assert (Hptr : ∀ v u, 0 ≤ v < GDI.m_height c → 0 ≤ u < GDI.m_width c →
            GDI.GetFrameBufferPixelPtr c v u = Some (GDI.m_stride c * v + 4 * u)).
  { intros v u Hv Hu. unfold GDI.GetFrameBufferPixelPtr.
    destruct (GDI.m_dibBits c); [|done]. simpl. f_equal.
    rewrite Hd. unfold to_unsigned. pose proof (Hrow v Hv).
    rewrite (Z.mod_small (GDI.m_stride c)) by lia.
    rewrite (Z.mod_small (GDI.m_stride c * v)) by lia.
    rewrite (Z.mod_small (u * 32)) by lia.
    replace (u * 32 / 8) with (4 * u) by (apply Z.div_unique_exact; lia).
    done. }
  assert (Hline : GDI.GetFrameBufferScanlinePtr c y = Some (GDI.m_stride c * y)).
  { unfold GDI.GetFrameBufferScanlinePtr.
    destruct (GDI.m_dibBits c); [|done]. simpl. f_equal. unfold to_unsigned.
    pose proof (Hrow y Hy).
    rewrite (Z.mod_small (GDI.m_stride c)) by lia.
    by rewrite Z.mod_small by lia. }
  split_and!; try done.
  - by apply Hptr.
  - pose proof (Hrow y Hy). lia.
  - rewrite Hline, Hptr by lia. f_equal. lia.
  - rewrite !Hptr by done. intros [= Heq].
    assert (y = y') by nia. subst y'. split; [done|lia].
Qed.

Lemma GDI_pixel_addressing_witness :
  GDI.GetFrameBufferPixelPtr Examples.gdi_1x3 2 0 = Some (4 * 2 + 4 * 0).
Proof.
  apply (GDI_pixel_addressing Examples.gdi_1x3 2 0 0 0); simpl;
    first [ done | lia ].
Defined.

(** X4: after a [CaptureFrame] whose blit wrote the bottom-up image [img],
    the four bytes that [GetFrameBufferPixelPtr(y, x)] points at are those of
    pixel [x] in row [height - 1 - y] of [img]: pixel (0, 0) is the first
    pixel of the last blitted row, the top left corner of the screen. *)
Theorem GDI_CaptureFrame_pixel_orientation
    (c : GDI.ScreenCaptureGDI) (img : list byte) (y x : Z) :
  GDI.m_hdcMem c ≠ None → GDI.m_dibBits c ≠ None → GDI.m_depth c = 32 →
  GDI.m_stride c = 4 * GDI.m_width c → GDI.m_width c < 2 ^ 27 →
  GDI.m_height c * GDI.m_stride c < 2 ^ 32 →
  length img = Z.to_nat (GDI.m_height c * GDI.m_stride c) →
  0 ≤ y < GDI.m_height c → 0 ≤ x < GDI.m_width c →
  ∃ off,
    GDI.GetFrameBufferPixelPtr (GDI.CaptureFrame c (Some img)).2 y x = Some off ∧
    mem_read (GDI.dib_pixels (GDI.CaptureFrame c (Some img)).2) off 4 =
    mem_read img (GDI.m_stride c * (GDI.m_height c - 1 - y) + 4 * x) 4.
Proof.
  intros Hdc Hbits Hd Hs Hw27 Hsize Hlen Hy Hx.
  assert (Hs0 : 0 ≤ GDI.m_stride c) by lia.
  assert (Hsle : GDI.m_stride c ≤ GDI.m_height c * GDI.m_stride c) by nia.
  assert (Hrow : 0 ≤ GDI.m_stride c * y ∧
            GDI.m_stride c * y + GDI.m_stride c ≤ GDI.m_height c * GDI.m_stride c)
    by nia.
  rewrite GDI_CaptureFrame_pixels by first [ done | lia ]. cbn [snd].
  exists (GDI.m_stride c * y + 4 * x). split.
  - unfold GDI.GetFrameBufferPixelPtr. cbn [GDI.m_dibBits GDI.m_stride GDI.m_depth].
    destruct (GDI.m_dibBits c); [|done]. simpl. f_equal.
    rewrite Hd. unfold to_unsigned.
    rewrite (Z.mod_small (GDI.m_stride c)) by lia.
    rewrite (Z.mod_small (GDI.m_stride c * y)) by lia.
    rewrite (Z.mod_small (x * 32)) by lia.
    replace (x * 32 / 8) with (4 * x) by (apply Z.div_unique_exact; lia).
    done.
  - cbn [GDI.dib_pixels]. unfold mem_read.
    remember (Z.to_nat (GDI.m_height c)) as h eqn:Eh.
    remember (Z.to_nat (GDI.m_stride c)) as s eqn:Es.
    apply list_eq. intros i.
    destruct (decide (i < 4)%nat) as [Hi|Hi];
      [|by rewrite !lookup_take_ge by lia].
    rewrite !lookup_take_lt, !lookup_drop by lia.
    replace (Z.to_nat (GDI.m_stride c * y + 4 * x) + i)%nat
      with (Z.to_nat y * s + (Z.to_nat (4 * x) + i))%nat by nia.
    replace (Z.to_nat (GDI.m_stride c * (GDI.m_height c - 1 - y) + 4 * x) + i)%nat
      with ((h - 1 - Z.to_nat y) * s + (Z.to_nat (4 * x) + i))%nat by nia.
    apply flip_scanlines_mirror; [nia|lia|lia].
Qed.

Lemma GDI_CaptureFrame_pixel_orientation_witness :
  ∃ off,
    GDI.GetFrameBufferPixelPtr
      (GDI.CaptureFrame Examples.gdi_1x3 (Some Examples.img_1x3)).2 0 0 = Some off ∧
    mem_read (GDI.dib_pixels
                (GDI.CaptureFrame Examples.gdi_1x3 (Some Examples.img_1x3)).2) off 4 =
    mem_read Examples.img_1x3 (4 * (3 - 1 - 0) + 4 * 0) 4.
Proof.
  apply (GDI_CaptureFrame_pixel_orientation Examples.gdi_1x3 Examples.img_1x3 0 0);
    simpl; first [ done | lia ].
Defined.

(** X5: the rows are reordered whether or not the blit wrote anything.  A
    [CaptureFrame] whose [BitBlt] fails, right after one that captured
    [img], still returns true, and leaves the previous frame in the buffer
    with its rows back in bottom-up order: the buffer is [img] again. *)
Theorem GDI_failed_blit_flips_back (c : GDI.ScreenCaptureGDI) (img : list byte) :
  GDI.m_hdcMem c ≠ None → GDI.m_width c ≠ 0 →
  0 ≤ GDI.m_stride c → 0 ≤ GDI.m_height c →
  GDI.m_height c * GDI.m_stride c < 2 ^ 32 →
  length img = Z.to_nat (GDI.m_height c * GDI.m_stride c) →
  (GDI.CaptureFrame (GDI.CaptureFrame c (Some img)).2 None).1 = true ∧
  GDI.dib_pixels (GDI.CaptureFrame (GDI.CaptureFrame c (Some img)).2 None).2 = img.
Proof.
  intros Hdc Hw Hs Hh Hsize Hlen.
  rewrite (GDI_CaptureFrame_pixels c (Some img)) by done. cbn [snd].
  rewrite GDI_CaptureFrame_pixels by done. cbn [fst snd GDI.dib_pixels
    GDI.m_height GDI.m_stride]. split; [done|].
  apply flip_scanlines_involutive. nia.
Qed.

Lemma GDI_failed_blit_flips_back_witness :
  (GDI.CaptureFrame
     (GDI.CaptureFrame Examples.gdi_1x3 (Some Examples.img_1x3)).2 None).1 = true ∧
  GDI.dib_pixels
    (GDI.CaptureFrame
       (GDI.CaptureFrame Examples.gdi_1x3 (Some Examples.img_1x3)).2 None).2
  = Examples.img_1x3.
Proof.
  apply (GDI_failed_blit_flips_back Examples.gdi_1x3 Examples.img_1x3);
    simpl; first [ done | lia ].
Defined.

(** X6: [InitializeDevice] tries the hardware, then the WARP, then the
    reference driver and stops at the first one whose [D3D11CreateDevice]
    returns a success code and both pointers: it installs that device and
    context and calls no later driver.  When none does, it has called all
    three, returns false and leaves the device and the context null. *)
Theorem DX11_InitializeDevice_priority (c : DX11.ScreenCaptureDX11) (os : DX11.StartupEnv) :
  (DX11.device_created (DX11.D3D11CreateDevice os DX11.D3D_DRIVER_TYPE_HARDWARE) = true →
   (DX11.InitializeDevice c os).1.1 = true ∧
   DX11.m_device (DX11.InitializeDevice c os).1.2
     = DX11.dev_device (DX11.D3D11CreateDevice os DX11.D3D_DRIVER_TYPE_HARDWARE) ∧
   DX11.m_deviceContext (DX11.InitializeDevice c os).1.2
     = DX11.dev_context (DX11.D3D11CreateDevice os DX11.D3D_DRIVER_TYPE_HARDWARE) ∧
   DX11.created_drivers (DX11.InitializeDevice c os).2
     = [DX11.D3D_DRIVER_TYPE_HARDWARE]) ∧
  (DX11.device_created (DX11.D3D11CreateDevice os DX11.D3D_DRIVER_TYPE_HARDWARE) = false →
   DX11.device_created (DX11.D3D11CreateDevice os DX11.D3D_DRIVER_TYPE_WARP) = true →
   (DX11.InitializeDevice c os).1.1 = true ∧
   DX11.m_device (DX11.InitializeDevice c os).1.2
     = DX11.dev_device (DX11.D3D11CreateDevice os DX11.D3D_DRIVER_TYPE_WARP) ∧
   DX11.m_deviceContext (DX11.InitializeDevice c os).1.2
     = DX11.dev_context (DX11.D3D11CreateDevice os DX11.D3D_DRIVER_TYPE_WARP) ∧
   DX11.created_drivers (DX11.InitializeDevice c os).2
     = [DX11.D3D_DRIVER_TYPE_HARDWARE; DX11.D3D_DRIVER_TYPE_WARP]) ∧
  (DX11.device_created (DX11.D3D11CreateDevice os DX11.D3D_DRIVER_TYPE_HARDWARE) = false →
   DX11.device_created (DX11.D3D11CreateDevice os DX11.D3D_DRIVER_TYPE_WARP) = false →
   DX11.device_created (DX11.D3D11CreateDevice os DX11.D3D_DRIVER_TYPE_REFERENCE) = true →
   (DX11.InitializeDevice c os).1.1 = true ∧
   DX11.m_device (DX11.InitializeDevice c os).1.2
     = DX11.dev_device (DX11.D3D11CreateDevice os DX11.D3D_DRIVER_TYPE_REFERENCE) ∧
   DX11.m_deviceContext (DX11.InitializeDevice c os).1.2
     = DX11.dev_context (DX11.D3D11CreateDevice os DX11.D3D_DRIVER_TYPE_REFERENCE) ∧
   DX11.created_drivers (DX11.InitializeDevice c os).2 = DX11.drivers) ∧
  (DX11.device_created (DX11.D3D11CreateDevice os DX11.D3D_DRIVER_TYPE_HARDWARE) = false →
   DX11.device_created (DX11.D3D11CreateDevice os DX11.D3D_DRIVER_TYPE_WARP) = false →
   DX11.device_created (DX11.D3D11CreateDevice os DX11.D3D_DRIVER_TYPE_REFERENCE) = false →
   (DX11.InitializeDevice c os).1.1 = false ∧
   DX11.m_device (DX11.InitializeDevice c os).1.2 = None ∧
   DX11.m_deviceContext (DX11.InitializeDevice c os).1.2 = None ∧
   DX11.created_drivers (DX11.InitializeDevice c os).2 = DX11.drivers).
Proof.
  unfold DX11.InitializeDevice, DX11.drivers, DX11.try_drivers, DX11.device_created.
  destruct (DX11.D3D11CreateDevice os DX11.D3D_DRIVER_TYPE_HARDWARE) as [ok1 [d1|] [c1|]],
    (DX11.D3D11CreateDevice os DX11.D3D_DRIVER_TYPE_WARP) as [ok2 [d2|] [c2|]],
    (DX11.D3D11CreateDevice os DX11.D3D_DRIVER_TYPE_REFERENCE) as [ok3 [d3|] [c3|]];
    destruct ok1, ok2, ok3; simpl; split_and!; intros; try done.
Qed.

Lemma DX11_InitializeDevice_priority_witness :
  (DX11.InitializeDevice Examples.dx_full Examples.dx_no_device).1.1 = false ∧
  DX11.m_device (DX11.InitializeDevice Examples.dx_full Examples.dx_no_device).1.2 = None ∧
  DX11.m_deviceContext
    (DX11.InitializeDevice Examples.dx_full Examples.dx_no_device).1.2 = None ∧
  DX11.created_drivers (DX11.InitializeDevice Examples.dx_full Examples.dx_no_device).2
    = DX11.drivers.
Proof.
  destruct (DX11_InitializeDevice_priority Examples.dx_full Examples.dx_no_device)
    as (_ & _ & _ & Hnone).
  apply Hnone; reflexivity.
Defined.

(** The loop succeeds exactly when one of the drivers yields a device, and
    then both pointers are set; it does not touch the pixel buffer. *)
Lemma try_drivers_result (os : DX11.StartupEnv) (ds : list DX11.D3D_DRIVER_TYPE) :
  ∀ c : DX11.ScreenCaptureDX11,
    (DX11.try_drivers ds c os).1.1
      = existsb (λ d, DX11.device_created (DX11.D3D11CreateDevice os d)) ds ∧
    ((DX11.try_drivers ds c os).1.1 = true →
     is_null (DX11.m_device (DX11.try_drivers ds c os).1.2) = false ∧
     is_null (DX11.m_deviceContext (DX11.try_drivers ds c os).1.2) = false) ∧
    DX11.m_frameBuffer (DX11.try_drivers ds c os).1.2 = DX11.m_frameBuffer c.
Proof.
  induction ds as [|d ds IH]; intros c; simpl; [done|].
  unfold DX11.device_created.
  destruct (DX11.D3D11CreateDevice os d) as [ok dev ctx]. simpl.
  destruct (ok && negb (is_null dev) && negb (is_null ctx)) eqn:E; simpl.
  - split_and!; try done; intros _; destruct ok, dev, ctx; done.
  - specialize (IH (DX11.set_device (DX11.set_device c dev ctx) None None)).
    destruct (DX11.try_drivers ds _ os) as [[ok' c'] tr]. simpl in *. done.
Qed.

(** X7: [Startup] returns true exactly when one of the three drivers
    yields a device, the four queries from the device to its first output
    succeed, and [DuplicateOutput] succeeds with a pointer.  After a
    successful [Startup] the three interfaces [CaptureFrame] needs are set,
    the duplication is the one [DuplicateOutput] returned and the pixel
    buffer is empty. *)
Theorem DX11_Startup_result (c : DX11.ScreenCaptureDX11) (os : DX11.StartupEnv) :
  (DX11.Startup c os).1.1 =
    (DX11.device_created (DX11.D3D11CreateDevice os DX11.D3D_DRIVER_TYPE_HARDWARE)
     || DX11.device_created (DX11.D3D11CreateDevice os DX11.D3D_DRIVER_TYPE_WARP)
     || DX11.device_created (DX11.D3D11CreateDevice os DX11.D3D_DRIVER_TYPE_REFERENCE))
    && DX11.QueryInterface_IDXGIDevice os && DX11.GetParent_IDXGIAdapter os
    && DX11.EnumOutputs os && DX11.QueryInterface_IDXGIOutput1 os
    && DX11.succeeded (DX11.DuplicateOutput os)
    && negb (is_null (DX11.out_ptr (DX11.DuplicateOutput os))) ∧
  ((DX11.Startup c os).1.1 = true →
   DX11.ready (DX11.Startup c os).1.2 = true ∧
   DX11.m_outputDuplication (DX11.Startup c os).1.2
     = DX11.out_ptr (DX11.DuplicateOutput os) ∧
   DX11.m_frameBuffer (DX11.Startup c os).1.2 = []).
Proof.
  unfold DX11.Startup, DX11.InitializeDevice, DX11.StartOutputDuplication, DX11.ready.
  pose proof (try_drivers_result os DX11.drivers
                (DX11.set_metadata (DX11.set_frameBuffer c []) 0 0 0 0)) as H.
  destruct (DX11.try_drivers _ _ os) as [[ok c1] tr1]. simpl in H.
  destruct H as (Hok & Hdev & Hbuf). rewrite orb_false_r, orb_assoc in Hok. rewrite <- Hok.
  destruct ok; simpl; [|done].
  destruct (Hdev eq_refl) as [Hd Hc].
  destruct (DX11.QueryInterface_IDXGIDevice os), (DX11.GetParent_IDXGIAdapter os),
    (DX11.EnumOutputs os), (DX11.QueryInterface_IDXGIOutput1 os); simpl; try done.
  destruct (DX11.DuplicateOutput os) as [ok2 [p|]]; destruct ok2; simpl; try done.
  split; [done|]. intros _. by rewrite Hd, Hc.
Qed.

Lemma DX11_Startup_result_witness :
  DX11.ready (DX11.Startup Examples.dx_full Examples.dx_on).1.2 = true ∧
  DX11.m_outputDuplication (DX11.Startup Examples.dx_full Examples.dx_on).1.2
    = DX11.out_ptr (DX11.DuplicateOutput Examples.dx_on) ∧
  DX11.m_frameBuffer (DX11.Startup Examples.dx_full Examples.dx_on).1.2 = [].
Proof.
  apply (proj2 (DX11_Startup_result Examples.dx_full Examples.dx_on)). reflexivity.
Defined.

(** Storing an [unsigned] into an [int] and back loses nothing. *)
Lemma to_unsigned_to_int (z : Z) : to_unsigned (to_int z) = to_unsigned z.
Proof.
  unfold to_unsigned, to_int.
  pose proof (Z.mod_pos_bound z (2 ^ 32) ltac:(lia)) as Hb.
  destruct (Z.ltb_spec (z mod 2 ^ 32) (2 ^ 31)).
  - by rewrite Z.mod_mod by lia.
  - replace (z mod 2 ^ 32 - 2 ^ 32) with (z mod 2 ^ 32 + (-1) * 2 ^ 32) by lia.
    rewrite Z.mod_add by lia. by rewrite Z.mod_mod by lia.
Qed.

(** X8: [CaptureFrame] never changes the device, the device context or the
    duplication session, so a session that was ready stays ready after a
    failed capture as after a successful one; and the staging texture is
    null again when the call returns (provided a failing [CreateTexture2D]
    stored no pointer). *)
Theorem DX11_CaptureFrame_keeps_session (c : DX11.ScreenCaptureDX11) (os : DX11.CaptureEnv) :
  DX11.m_device (DX11.CaptureFrame c os).1.2 = DX11.m_device c ∧
  DX11.m_deviceContext (DX11.CaptureFrame c os).1.2 = DX11.m_deviceContext c ∧
  DX11.m_outputDuplication (DX11.CaptureFrame c os).1.2 = DX11.m_outputDuplication c ∧
  DX11.ready (DX11.CaptureFrame c os).1.2 = DX11.ready c ∧
  (DX11.m_stagingTexture c = None →
   (DX11.succeeded (DX11.CreateTexture2D os) = false →
    DX11.out_ptr (DX11.CreateTexture2D os) = None) →
   DX11.m_stagingTexture (DX11.CaptureFrame c os).1.2 = None).
Proof.
  assert (H : DX11.m_device (DX11.CaptureFrame c os).1.2 = DX11.m_device c ∧
    DX11.m_deviceContext (DX11.CaptureFrame c os).1.2 = DX11.m_deviceContext c ∧
    DX11.m_outputDuplication (DX11.CaptureFrame c os).1.2 = DX11.m_outputDuplication c ∧
    (DX11.m_stagingTexture c = None →
     (DX11.succeeded (DX11.CreateTexture2D os) = false →
      DX11.out_ptr (DX11.CreateTexture2D os) = None) →
     DX11.m_stagingTexture (DX11.CaptureFrame c os).1.2 = None)).
  { unfold DX11.CaptureFrame, DX11.CreateStagingTexture,
      DX11.CopyStagingTextureToMemory.
    destruct (DX11.AcquireNextFrame os) as [[acquired image] tr1].
    destruct (DX11.CreateTexture2D os) as [created tex].
    repeat (case_match; simplify_eq/=); split_and!; try done.
    all: intros Hst Hcom; try done; destruct created, tex; simplify_eq/=; auto;
      by specialize (Hcom eq_refl). }
  destruct H as (Hd & Hc & Ho & Hs). split_and!; try done.
  unfold DX11.ready. by rewrite Hd, Hc, Ho.
Qed.

Lemma DX11_CaptureFrame_keeps_session_witness :
  DX11.m_stagingTexture
    (DX11.CaptureFrame Examples.dx_started Examples.dx_env_bgra).1.2 = None.
Proof.
  apply (DX11_CaptureFrame_keeps_session Examples.dx_started Examples.dx_env_bgra).
  - reflexivity.
  - simpl. discriminate.
Defined.

(** X9: when [CaptureFrame] returns true, the session was ready and the
    format supported; the width and height are those of the duplication
    description, the depth is 32, the stride is the row pitch of the mapped
    texture, the pixel buffer has [stride * height] bytes (the product taken
    in 32 bits), and it holds the first that many bytes of the mapped data. *)
Theorem DX11_CaptureFrame_success (c : DX11.ScreenCaptureDX11) (os : DX11.CaptureEnv) :
  (DX11.CaptureFrame c os).1.1 = true →
  DX11.GetFrameWidth (DX11.CaptureFrame c os).1.2 = to_unsigned (DX11.desc_Width os) ∧
  DX11.GetFrameHeight (DX11.CaptureFrame c os).1.2 = to_unsigned (DX11.desc_Height os) ∧
  DX11.GetFrameDepth (DX11.CaptureFrame c os).1.2 = 32 ∧
  DX11.GetFrameStride (DX11.CaptureFrame c os).1.2 = to_unsigned (DX11.RowPitch os) ∧
  length (DX11.m_frameBuffer (DX11.CaptureFrame c os).1.2)
    = Z.to_nat (to_unsigned (DX11.GetFrameStride (DX11.CaptureFrame c os).1.2
                             * DX11.GetFrameHeight (DX11.CaptureFrame c os).1.2)) ∧
  ((length (DX11.m_frameBuffer (DX11.CaptureFrame c os).1.2)
    ≤ length (DX11.pData os))%nat →
   DX11.m_frameBuffer (DX11.CaptureFrame c os).1.2
     = take (length (DX11.m_frameBuffer (DX11.CaptureFrame c os).1.2)) (DX11.pData os)) ∧
  DX11.ready c = true ∧
  DX11.IsFormat32bit (DX11.desc_Format os) = true.
Proof.
  unfold DX11.ready, DX11.CaptureFrame, DX11.CreateStagingTexture,
    DX11.CopyStagingTextureToMemory.
  destruct (DX11.AcquireNextFrame os) as [[acquired image] tr1].
  destruct (DX11.CreateTexture2D os) as [created tex].
  repeat (case_match; simplify_eq/=); try done. intros _.
  rewrite !to_unsigned_to_int, !length_inserts, !length_resize.
  remember (Z.to_nat (to_unsigned (to_unsigned (DX11.RowPitch os)
                                   * to_unsigned (DX11.desc_Height os)))) as n.
  split_and!; try done.
  - intros Hlen.
    rewrite <- (app_nil_r (resize n x00 (DX11.m_frameBuffer c))).
    rewrite list_inserts_0_r; [by rewrite app_nil_r|].
    rewrite length_take, length_resize. lia.
  - match goal with Hg : _ || _ || _ = false |- _ => by rewrite Hg end.
  - by destruct (DX11.IsFormat32bit (DX11.desc_Format os)).
Qed.

Lemma DX11_CaptureFrame_success_witness :
  DX11.GetFrameWidth (DX11.CaptureFrame Examples.dx_started Examples.dx_env_bgra).1.2
    = to_unsigned (DX11.desc_Width Examples.dx_env_bgra).
Proof.
  apply (DX11_CaptureFrame_success Examples.dx_started Examples.dx_env_bgra).
  reflexivity.
Defined.

(** X11: [Shutdown] empties the pixel buffer but leaves width, height,
    depth and stride as they were; they are cleared by the next
    [CaptureFrame], which after a [Shutdown] returns false without any
    native call. *)
Theorem DX11_Shutdown_then_CaptureFrame (c : DX11.ScreenCaptureDX11) (os : DX11.CaptureEnv) :
  DX11.GetFrameWidth (DX11.Shutdown c).1 = DX11.GetFrameWidth c ∧
  DX11.GetFrameHeight (DX11.Shutdown c).1 = DX11.GetFrameHeight c ∧
  DX11.GetFrameDepth (DX11.Shutdown c).1 = DX11.GetFrameDepth c ∧
  DX11.GetFrameStride (DX11.Shutdown c).1 = DX11.GetFrameStride c ∧
  DX11.CaptureFrame (DX11.Shutdown c).1 os
    = (false, DX11.mkDX11 None None None None [] 0 0 0 0, []).
Proof. by split_and!. Qed.

(** A successful [AcquireNextFrame] has made [k < 4] retried attempts and one
    more acquisition. *)
Lemma AcquireNextFrame_shape (os : DX11.CaptureEnv) :
  (DX11.AcquireNextFrame os).1.1 = true →
  ∃ k : nat, (k < 4)%nat ∧
    (DX11.AcquireNextFrame os).2 =
      concat (replicate k DX11.retried) ++ [DX11.Call_AcquireNextFrame].
Proof.
  intros Hok.
  assert (Hcase :
    (∃ k : nat, (k < 4)%nat ∧
       (∀ j, (j < k)%nat → DX11.is_retry (DX11.AcquireNextFrame_answer os j) = true) ∧
       DX11.is_retry (DX11.AcquireNextFrame_answer os k) = false) ∨
    (∀ j, (j < 4)%nat → DX11.is_retry (DX11.AcquireNextFrame_answer os j) = true)).
  { destruct (DX11.is_retry (DX11.AcquireNextFrame_answer os 0)) eqn:E0;
      [|left; exists 0%nat; split_and!; [lia| intros; lia | done]].
    destruct (DX11.is_retry (DX11.AcquireNextFrame_answer os 1)) eqn:E1;
      [|left; exists 1%nat; split_and!; [lia| |done];
        intros j Hj; by assert (j = 0%nat) as -> by lia].
    destruct (DX11.is_retry (DX11.AcquireNextFrame_answer os 2)) eqn:E2;
      [|left; exists 2%nat; split_and!; [lia| |done];
        intros j Hj; destruct j as [|[|j]]; try done; lia].
    destruct (DX11.is_retry (DX11.AcquireNextFrame_answer os 3)) eqn:E3;
      [|left; exists 3%nat; split_and!; [lia| |done];
        intros j Hj; destruct j as [|[|[|j]]]; try done; lia].
    right. intros j Hj. destruct j as [|[|[|[|j]]]]; try done; lia. }
  destruct Hcase as [(k & Hk & Hpre & Hstop)|Hall].
  - exists k. split; [done|].
    assert (Hloop : DX11.acquire_loop 4 0 os false None =
      (DX11.acq_succeeded (DX11.AcquireNextFrame_answer os k),
       DX11.acq_resource (DX11.AcquireNextFrame_answer os k),
       concat (replicate k DX11.retried) ++ [DX11.Call_AcquireNextFrame]))
      by exact (acquire_loop_stops os k 4 0 false None Hk Hpre Hstop).
    unfold DX11.AcquireNextFrame. rewrite Hloop. by repeat case_match.
  - assert (Hloop := acquire_loop_exhausted os 4 0 false None ltac:(lia) Hall).
    revert Hok. unfold DX11.AcquireNextFrame. by rewrite Hloop.
Qed.

(** X10: the calls a [CaptureFrame] that returns true has made on the four
    member interfaces are, after [k < 4] retried attempts,
    [AcquireNextFrame] and [GetDesc] on the output duplication,
    [CreateTexture2D] on the device, [CopyResource] on the device context,
    [GetDesc] on the staging texture, [Map] and [Unmap] on the device
    context, the release of the staging texture and [ReleaseFrame], in this
    order; it has called [ReleaseFrame] as often as [AcquireNextFrame]. *)
Theorem DX11_CaptureFrame_success_calls (c : DX11.ScreenCaptureDX11) (os : DX11.CaptureEnv) :
  (DX11.CaptureFrame c os).1.1 = true →
  ∃ k : nat, (k < 4)%nat ∧
    (DX11.CaptureFrame c os).2 =
      concat (replicate k DX11.retried) ++
      [DX11.Call_AcquireNextFrame; DX11.Call_GetDesc; DX11.Call_CreateTexture2D;
       DX11.Call_CopyResource; DX11.Call_StagingTexture_GetDesc;
       DX11.Call_Map; DX11.Call_Unmap;
       DX11.Release_stagingTexture; DX11.Call_ReleaseFrame] ∧
    DX11.count DX11.Call_AcquireNextFrame (DX11.CaptureFrame c os).2 = S k ∧
    DX11.count DX11.Call_ReleaseFrame (DX11.CaptureFrame c os).2 = S k.
Proof.
  intros Hok.
  assert (Hacq : (DX11.AcquireNextFrame os).1.1 = true).
  { destruct ((DX11.AcquireNextFrame os).1.1) eqn:E; [done|].
    by rewrite (CaptureFrame_needs_frame c os E) in Hok. }
  destruct (AcquireNextFrame_shape os Hacq) as (k & Hk & Htr).
  exists k. split; [done|].
  assert (Hcalls : (DX11.CaptureFrame c os).2 =
      concat (replicate k DX11.retried) ++
      [DX11.Call_AcquireNextFrame; DX11.Call_GetDesc; DX11.Call_CreateTexture2D;
       DX11.Call_CopyResource; DX11.Call_StagingTexture_GetDesc;
       DX11.Call_Map; DX11.Call_Unmap;
       DX11.Release_stagingTexture; DX11.Call_ReleaseFrame]).
  { revert Hok Htr. unfold DX11.CaptureFrame, DX11.CreateStagingTexture,
      DX11.CopyStagingTextureToMemory.
    destruct (DX11.AcquireNextFrame os) as [[acquired image] tr1].
    destruct (DX11.CreateTexture2D os) as [created [tex|]].
    all: repeat (case_match; simplify_eq/=); try done.
    all: intros _ ->; rewrite <- ?app_assoc; simpl; try done.
    all: by destruct created. }
  rewrite Hcalls, !count_app, !count_retried.
  split; [done|]. unfold DX11.count. simpl. lia.
Qed.

Lemma DX11_CaptureFrame_success_calls_witness :
  ∃ k : nat, (k < 4)%nat ∧
    (DX11.CaptureFrame Examples.dx_started Examples.dx_env_bgra).2 =
      concat (replicate k DX11.retried) ++
      [DX11.Call_AcquireNextFrame; DX11.Call_GetDesc; DX11.Call_CreateTexture2D;
       DX11.Call_CopyResource; DX11.Call_StagingTexture_GetDesc;
       DX11.Call_Map; DX11.Call_Unmap;
       DX11.Release_stagingTexture; DX11.Call_ReleaseFrame] ∧
    DX11.count DX11.Call_AcquireNextFrame
      (DX11.CaptureFrame Examples.dx_started Examples.dx_env_bgra).2 = S k ∧
    DX11.count DX11.Call_ReleaseFrame
      (DX11.CaptureFrame Examples.dx_started Examples.dx_env_bgra).2 = S k.
Proof.
  apply (DX11_CaptureFrame_success_calls Examples.dx_started Examples.dx_env_bgra).
  reflexivity.
Defined.

(** X12: in every state a client can reach, the GDI backend is installed
    exactly when the mode is GDI and the DX11 backend exactly when the mode
    is DX11; the two are never installed together. *)
Theorem Facade_one_backend (f : Facade.ScreenCapture) :
  Facade.reachable f →
  (is_Some (Facade.m_capgdi f) ↔ Facade.m_mode f = Facade.ScreenCaptureMode_GDI) ∧
  (is_Some (Facade.m_capdx11 f) ↔ Facade.m_mode f = Facade.ScreenCaptureMode_DX11) ∧
  ¬ (is_Some (Facade.m_capgdi f) ∧ is_Some (Facade.m_capdx11 f)).
Proof.
  intros Hr.
  assert (H : (is_Some (Facade.m_capgdi f) ↔ Facade.m_mode f = Facade.ScreenCaptureMode_GDI) ∧
              (is_Some (Facade.m_capdx11 f) ↔ Facade.m_mode f = Facade.ScreenCaptureMode_DX11)).
  { induction Hr as [|f mode gos dos Hr IH|f _ _|f b os _ IH].
    - simpl. split; split; intros H; try done; by destruct H.
    - rewrite (Facade_Startup_shape f mode gos dos Hr).
      destruct mode; simpl; split; split; intros H; try done;
        try (by destruct H); by eexists.
    - simpl. split; split; intros H; try done; by destruct H.
    - revert IH. unfold Facade.CaptureFrame.
      destruct (Facade.m_capgdi f) as [g|] eqn:Eg,
        (Facade.m_capdx11 f) as [d|] eqn:Ed; simpl.
      + destruct (GDI.CaptureFrame g b) as [ok g']. simpl.
        intros [[H1 H2] [H3 H4]]. split; split; intros H; auto; by eexists.
      + destruct (GDI.CaptureFrame g b) as [ok g']. simpl.
        intros [[H1 H2] [H3 H4]]. split; split; intros H; auto; by eexists.
      + destruct (DX11.CaptureFrame d os) as [[ok d'] tr]. simpl.
        intros [[H1 H2] [H3 H4]]. split; split; intros H; auto; by eexists.
      + rewrite Eg, Ed. auto. }
  destruct H as [Hg Hd]. split_and!; try done.
  intros [H1 H2]. apply Hg in H1. apply Hd in H2. congruence.
Qed.

Lemma Facade_one_backend_witness :
  ¬ (is_Some (Facade.m_capgdi
       (Facade.Startup Facade.fresh Facade.ScreenCaptureMode_GDI
          Examples.gdi_ok Examples.dx_on).1.2) ∧
     is_Some (Facade.m_capdx11
       (Facade.Startup Facade.fresh Facade.ScreenCaptureMode_GDI
          Examples.gdi_ok Examples.dx_on).1.2)).
Proof.
  apply (Facade_one_backend
           (Facade.Startup Facade.fresh Facade.ScreenCaptureMode_GDI
              Examples.gdi_ok Examples.dx_on).1.2).
  apply Facade.reachable_Startup. apply Facade.reachable_fresh.
Defined.

(** Releasing a pointer that is set makes the call. *)
Lemma release_elem (p : option handle) (e : DX11.event) :
  p ≠ None → e ∈ DX11.release p e.
Proof. destruct p; [|done]. intros _. simpl. apply list_elem_of_here. Qed.

(** X13: [Startup] on a session in use gives the same result and the same
    session as on a new one.  Its calls are those of shutting the old
    session down followed by those of starting the new backend, so every
    interface the old DX11 backend held is released. *)
Theorem Facade_Startup_switches (f : Facade.ScreenCapture)
    (mode : Facade.ScreenCaptureMode) (gos : GDI.StartupEnv) (dos : DX11.StartupEnv) :
  Facade.reachable f →
  (Facade.Startup f mode gos dos).1
    = (Facade.Startup Facade.fresh mode gos dos).1 ∧
  (Facade.Startup f mode gos dos).2
    = (Facade.Shutdown f).2 ++ (Facade.Startup Facade.fresh mode gos dos).2 ∧
  (∀ d, Facade.m_capdx11 f = Some d →
     (DX11.m_stagingTexture d ≠ None →
      DX11.Release_stagingTexture ∈ (Facade.Startup f mode gos dos).2) ∧
     (DX11.m_outputDuplication d ≠ None →
      DX11.Release_outputDuplication ∈ (Facade.Startup f mode gos dos).2) ∧
     (DX11.m_device d ≠ None →
      DX11.Release_device ∈ (Facade.Startup f mode gos dos).2) ∧
     (DX11.m_deviceContext d ≠ None →
      DX11.Release_deviceContext ∈ (Facade.Startup f mode gos dos).2)).
Proof.
  intros Hr.
  assert (Htr : (Facade.Startup f mode gos dos).2
            = (Facade.Shutdown f).2 ++ (Facade.Startup Facade.fresh mode gos dos).2).
  { unfold Facade.Startup at 1.
    destruct (decide (Facade.m_mode f = Facade.ScreenCaptureMode_Invalid)) as [Hm|Hm];
      unfold Facade.Startup; simpl.
    - destruct (Facade_reachable_inv f Hr Hm) as [Hg Hd].
      unfold Facade.Shutdown. rewrite Hd. simpl.
      destruct mode; simpl; try done;
        first [ by destruct (GDI.Startup GDI.fresh gos)
              | by destruct (DX11.Startup DX11.fresh dos) as [[??]?] ].
    - destruct mode; simpl; rewrite ?app_nil_r; try done;
        first [ by destruct (GDI.Startup GDI.fresh gos); simpl; rewrite ?app_nil_r
              | by destruct (DX11.Startup DX11.fresh dos) as [[??]?] ]. }
  split_and!; [|done|].
  - rewrite (Facade_Startup_shape f mode gos dos Hr).
    rewrite (Facade_Startup_shape Facade.fresh mode gos dos Facade.reachable_fresh).
    by destruct mode.
  - intros d Hd. rewrite Htr. unfold Facade.Shutdown. rewrite Hd. simpl.
    unfold DX11.Shutdown. simpl.
    split_and!; intros Hne; apply elem_of_app; left;
      rewrite !elem_of_app; auto using release_elem.
Qed.

Lemma Facade_Startup_switches_witness :
  (Facade.Startup
     (Facade.Startup Facade.fresh Facade.ScreenCaptureMode_DX11
        Examples.gdi_ok Examples.dx_on).1.2
     Facade.ScreenCaptureMode_GDI Examples.gdi_ok Examples.dx_on).1
  = (Facade.Startup Facade.fresh Facade.ScreenCaptureMode_GDI
       Examples.gdi_ok Examples.dx_on).1.
Proof.
  apply (Facade_Startup_switches
           (Facade.Startup Facade.fresh Facade.ScreenCaptureMode_DX11
              Examples.gdi_ok Examples.dx_on).1.2).
  apply Facade.reachable_Startup. apply Facade.reachable_fresh.
Defined.

(** * Properties of the encoder and of the bitmap writer *)

(** X14: [Start] returns true exactly when width, height and frame rate are
    at least 1 and the sink writer could be set up.  Whenever it returns
    false no writer is left, also when the arguments were rejected: a writer
    of an earlier [Start] has been finalized and released first.  After a
    successful [Start] the size is stored, the writer is set, the pixel
    buffer has four bytes for each of the [width * height] pixels (the
    product taken in 32 bits) and the frame duration is 10,000,000 divided
    by the frame rate, rounded down. *)
Theorem Encoder_Start_result (e : Encoder.VideoFileEncoder) (width height fps : Z)
    (os : Encoder.StartEnv) :
  ((Encoder.Start e width height fps os).1 = true ↔
   1 ≤ width ∧ 1 ≤ height ∧ 1 ≤ fps ∧ is_Some (Encoder.InitializeSinkWriter os)) ∧
  ((Encoder.Start e width height fps os).1 = false →
   Encoder.m_pSinkWriter (Encoder.Start e width height fps os).2 = None) ∧
  ((Encoder.Start e width height fps os).1 = true →
   Encoder.m_width (Encoder.Start e width height fps os).2 = width ∧
   Encoder.m_height (Encoder.Start e width height fps os).2 = height ∧
   Encoder.m_pSinkWriter (Encoder.Start e width height fps os).2 ≠ None ∧
   length (Encoder.m_pixels (Encoder.Start e width height fps os).2)
     = Z.to_nat (4 * to_unsigned (width * height)) ∧
   fps * Encoder.GetFrameDuration (Encoder.Start e width height fps os).2 ≤ 10000000
     < fps * (Encoder.GetFrameDuration (Encoder.Start e width height fps os).2 + 1)).
Proof.
  unfold Encoder.Start, Encoder.SetFrameFormat, Encoder.Stop, Encoder.GetFrameDuration.
  destruct (Z.ltb_spec width 1), (Z.ltb_spec height 1), (Z.ltb_spec fps 1); simpl.
  1-7: split_and!; try done;
    [ split; [done | intros (? & ? & ? & ?); lia]
    | intros _; by destruct (Encoder.m_pSinkWriter e) eqn:E ].
  destruct (Encoder.InitializeSinkWriter os) as [[writer stream]|]; simpl.
  - split_and!; try done.
    intros _. split_and!; try done.
    + rewrite length_resize. f_equal. lia.
    + change (10 * 1000 * 1000) with 10000000.
      pose proof (Z.mul_div_le 10000000 fps ltac:(lia)). lia.
    + change (10 * 1000 * 1000) with 10000000.
      pose proof (Z.mul_succ_div_gt 10000000 fps ltac:(lia)). lia.
  - split_and!; try done. split; [done|]. intros (_ & _ & _ & Hw). by destruct Hw.
Qed.

Lemma Encoder_Start_result_witness :
  Encoder.m_pSinkWriter
    (Encoder.Start Encoder.fresh 0 1080 30
       (Encoder.mkStartEnv true (Some (31%positive, 0)))).2 = None.
Proof.
  apply (Encoder_Start_result Encoder.fresh 0 1080 30
           (Encoder.mkStartEnv true (Some (31%positive, 0)))).
  reflexivity.
Defined.

(** X15: [AddFrame] is guarded by the pixel buffer, not by the writer.  It
    returns false on a new encoder and for a null pixel pointer.  But once a
    frame format has been set, an [AddFrame] after a [Start] that failed to
    set up the sink writer, or after [Stop], builds the sample and then
    calls [WriteSample] on the null writer. *)
Theorem Encoder_AddFrame_guard (e : Encoder.VideoFileEncoder) (width height fps : Z)
    (src : list byte) (flipY : bool) (os : Encoder.StartEnv) (fos : Encoder.FrameEnv) :
  (Encoder.AddFrame Encoder.fresh (Some src) flipY fos).1 = Encoder.Returned false ∧
  (Encoder.AddFrame e None flipY fos).1 = Encoder.Returned false ∧
  (1 ≤ width → 1 ≤ height → 1 ≤ fps → to_unsigned (width * height) ≠ 0 →
   Encoder.sample_built fos = true →
   (Encoder.InitializeSinkWriter os = None →
    (Encoder.AddFrame (Encoder.Start e width height fps os).2 (Some src) flipY fos).1
      = Encoder.NullDereference) ∧
   (Encoder.AddFrame
      (Encoder.Stop (Encoder.Start e width height fps os).2 (Encoder.Finalize os)).2
      (Some src) flipY fos).1 = Encoder.NullDereference).
Proof.
  split_and!; try done.
  intros Hw Hh Hf Harea Hbuilt.
  assert (Hne : ∀ buf : list byte,
            resize (Z.to_nat (to_unsigned (width * height) * 4)) x00 buf ≠ []).
  { intros buf Hnil. apply (f_equal length) in Hnil.
    rewrite length_resize in Hnil. simpl in Hnil.
    pose proof (Z.mod_pos_bound (width * height) (2 ^ 32) ltac:(lia)).
    unfold to_unsigned in *. lia. }
  unfold Encoder.Start, Encoder.SetFrameFormat, Encoder.Stop.
  destruct (Z.ltb_spec width 1), (Z.ltb_spec height 1), (Z.ltb_spec fps 1);
    try lia. simpl.
  split.
  - intros ->. simpl. unfold Encoder.AddFrame. simpl.
    rewrite bool_decide_eq_false_2 by apply Hne.
    unfold Encoder.WriteFrame. by rewrite Hbuilt.
  - destruct (Encoder.InitializeSinkWriter os) as [[writer stream]|]; simpl;
      unfold Encoder.AddFrame; simpl;
      rewrite bool_decide_eq_false_2 by apply Hne;
      unfold Encoder.WriteFrame; by rewrite Hbuilt.
Qed.

Lemma Encoder_AddFrame_guard_witness :
  (Encoder.AddFrame
     (Encoder.Stop
        (Encoder.Start Encoder.fresh 1 3 30
           (Encoder.mkStartEnv true (Some (31%positive, 0)))).2 true).2
     (Some Examples.img_1x3) true (Encoder.mkFrameEnv true true)).1
  = Encoder.NullDereference.
Proof.
  apply (Encoder_AddFrame_guard Encoder.fresh 1 3 30 Examples.img_1x3 true
           (Encoder.mkStartEnv true (Some (31%positive, 0)))
           (Encoder.mkFrameEnv true true)); first [ lia | done ].
Defined.

(** The first [memcpy] of [AddFrame] fills the whole pixel buffer. *)
Lemma Encoder_copy_in (buf src : list byte) (n : Z) :
  length buf = Z.to_nat n → (Z.to_nat n ≤ length src)%nat →
  mem_write buf 0 (mem_read src 0 n) = take (Z.to_nat n) src.
Proof.
  intros Hbuf Hsrc. unfold mem_write, mem_read.
  change (Z.to_nat 0) with 0%nat. rewrite drop_0.
  rewrite <- (app_nil_r buf).
  rewrite list_inserts_0_r; [by rewrite app_nil_r|].
  rewrite length_take. lia.
Qed.

(** The sizes and offsets [AddFrame] computes for a frame below [2^32]
    bytes. *)
Lemma Encoder_offsets (w h : Z) :
  1 ≤ w → 1 ≤ h → 4 * w * h < 2 ^ 32 →
  to_unsigned (w * h) * 4 = 4 * w * h ∧
  to_unsigned (w * 4) = Z.of_nat (Z.to_nat (4 * w)) ∧
  to_unsigned (to_unsigned (h - 1) * to_unsigned (w * 4))
    = Z.of_nat ((Z.to_nat h - 1) * Z.to_nat (4 * w)) ∧
  Z.to_nat (h / 2) = (Z.to_nat h / 2)%nat ∧
  Z.to_nat (4 * w * h) = (Z.to_nat h * Z.to_nat (4 * w))%nat.
Proof.
  intros Hw Hh Hsize. unfold to_unsigned.
  rewrite (Z.mod_small (w * h)) by nia.
  rewrite (Z.mod_small (w * 4)) by nia.
  rewrite (Z.mod_small (h - 1)) by nia.
  rewrite Z.mod_small by nia.
  split_and!; try nia.
  rewrite <- (Nat2Z.id (_ / 2)%nat). f_equal.
  rewrite Nat2Z.inj_div. by rewrite Z2Nat.id by lia.
Qed.

(** X16: for a frame of fewer than [2^32] bytes, [AddFrame] without
    [flipY] leaves a copy of the caller's pixels in the pixel buffer, and
    with [flipY] it leaves them with the rows mirrored: row [i] of the
    buffer is row [height - 1 - i] of the caller's frame. *)
Theorem Encoder_AddFrame_rows (e : Encoder.VideoFileEncoder) (src : list byte)
    (os : Encoder.FrameEnv) :
  1 ≤ Encoder.m_width e → 1 ≤ Encoder.m_height e →
  4 * Encoder.m_width e * Encoder.m_height e < 2 ^ 32 →
  length (Encoder.m_pixels e)
    = Z.to_nat (4 * Encoder.m_width e * Encoder.m_height e) →
  (length (Encoder.m_pixels e) ≤ length src)%nat →
  Encoder.m_pixels (Encoder.AddFrame e (Some src) false os).2
    = take (length (Encoder.m_pixels e)) src ∧
  ∀ i, 0 ≤ i < Encoder.m_height e →
    GDI.scanline_at (Encoder.m_pixels (Encoder.AddFrame e (Some src) true os).2)
                    (4 * Encoder.m_width e) i
    = GDI.scanline_at src (4 * Encoder.m_width e) (Encoder.m_height e - 1 - i).
Proof.
  intros Hw Hh Hsize Hlen Hsrc.
  destruct (Encoder_offsets _ _ Hw Hh Hsize) as (Hn & Hs & Ho & Hd & Hnat).
  assert (Hne : Encoder.m_pixels e ≠ []).
  { intros Hnil. rewrite Hnil in Hlen. simpl in Hlen. nia. }
  unfold Encoder.AddFrame. rewrite bool_decide_eq_false_2 by done.
  cbn [snd Encoder.m_pixels Encoder.set_pixels].
  rewrite Hn, Encoder_copy_in by lia. rewrite <- Hlen. split; [done|].
  intros i Hi. rewrite Ho, Hs, Hd.
  set (h := Z.to_nat (Encoder.m_height e)) in *.
  set (s := Z.to_nat (4 * Encoder.m_width e)) in *.
  set (buf := take (length (Encoder.m_pixels e)) src).
  assert (Hbuf : length buf = (h * s)%nat).
  { unfold buf. rewrite length_take. lia. }
  unfold GDI.scanline_at, mem_read. fold s.
  apply list_eq. intros j.
  destruct (decide (j < s)%nat) as [Hj|Hj];
    [|by rewrite !lookup_take_ge by lia].
  rewrite !lookup_take_lt, !lookup_drop by done.
  replace (Z.to_nat (4 * Encoder.m_width e * i) + j)%nat
    with (Z.to_nat i * s + j)%nat by (unfold s; nia).
  replace (Z.to_nat (4 * Encoder.m_width e * (Encoder.m_height e - 1 - i)) + j)%nat
    with ((h - 1 - Z.to_nat i) * s + j)%nat by (unfold s, h; nia).
  rewrite flip_scanlines_mirror by (try done; lia).
  unfold buf. apply lookup_take_lt. nia.
Qed.

Lemma Encoder_AddFrame_rows_witness :
  Encoder.m_pixels
    (Encoder.AddFrame
       (Encoder.mkEnc 1 3 30 333333 7 (replicate 12 x00) (Some 31%positive) 0)
       (Some Examples.img_1x3) false (Encoder.mkFrameEnv true true)).2
  = take 12 Examples.img_1x3.
Proof.
  apply (Encoder_AddFrame_rows
           (Encoder.mkEnc 1 3 30 333333 7 (replicate 12 x00) (Some 31%positive) 0)
           Examples.img_1x3 (Encoder.mkFrameEnv true true));
    simpl; first [ done | lia ].
Defined.

(** X17: the capture-and-encode loop hands the GDI frame buffer to
    [AddFrame] with [flipY] set.  The rows that [CaptureFrame] has put in
    top-down order are mirrored once more: the encoder's pixel buffer is the
    bottom-up image the blit produced. *)
Theorem Encoder_after_GDI_capture (c : GDI.ScreenCaptureGDI) (img : list byte)
    (e : Encoder.VideoFileEncoder) (os : Encoder.FrameEnv) :
  GDI.m_hdcMem c ≠ None → 1 ≤ GDI.m_width c → 1 ≤ GDI.m_height c →
  GDI.m_stride c = 4 * GDI.m_width c →
  GDI.m_height c * GDI.m_stride c < 2 ^ 32 →
  length img = Z.to_nat (GDI.m_height c * GDI.m_stride c) →
  Encoder.m_width e = GDI.m_width c → Encoder.m_height e = GDI.m_height c →
  length (Encoder.m_pixels e) = length img →
  Encoder.m_pixels
    (Encoder.AddFrame e (Some (GDI.dib_pixels (GDI.CaptureFrame c (Some img)).2))
       true os).2 = img.
Proof.
  intros Hdc Hw Hh Hs Hsize Hlen Hew Heh Hpix.
  rewrite GDI_CaptureFrame_pixels by first [ done | lia ]. cbn [snd GDI.dib_pixels].
  assert (Hsize' : 4 * Encoder.m_width e * Encoder.m_height e < 2 ^ 32)
    by (rewrite Hew, Heh; lia).
  destruct (Encoder_offsets (Encoder.m_width e) (Encoder.m_height e)
              ltac:(lia) ltac:(lia) Hsize') as (Hn & Hst & Ho & Hd & Hnat).
  assert (Hne : Encoder.m_pixels e ≠ []).
  { intros Hnil. rewrite Hnil in Hpix. simpl in Hpix. nia. }
  unfold Encoder.AddFrame. rewrite bool_decide_eq_false_2 by done.
  cbn [snd Encoder.m_pixels Encoder.set_pixels].
  rewrite Hn, Ho, Hst, Hd, Hew, Heh, <- Hs.
  rewrite Encoder_copy_in;
    [ | rewrite Hpix, Hlen; f_equal; lia
      | rewrite flip_scanlines_length, Hlen; apply Nat.eq_le_incl; f_equal; lia ].
  rewrite take_ge
    by (rewrite flip_scanlines_length, Hlen; apply Nat.eq_le_incl; f_equal; lia).
  apply flip_scanlines_involutive. lia.
Qed.

Lemma Encoder_after_GDI_capture_witness :
  Encoder.m_pixels
    (Encoder.AddFrame
       (Encoder.mkEnc 1 3 30 333333 7 (replicate 12 x00) (Some 31%positive) 0)
       (Some (GDI.dib_pixels
                (GDI.CaptureFrame Examples.gdi_1x3 (Some Examples.img_1x3)).2))
       true (Encoder.mkFrameEnv true true)).2
  = Examples.img_1x3.
Proof.
  apply (Encoder_after_GDI_capture Examples.gdi_1x3 Examples.img_1x3
           (Encoder.mkEnc 1 3 30 333333 7 (replicate 12 x00) (Some 31%positive) 0)
           (Encoder.mkFrameEnv true true));
    simpl; first [ done | lia ].
Defined.

(** X18: the row size of the file is the least multiple of 4 that is not
    below [width * bitsPerPixel / 8]; for 32 bits per pixel it is
    [4 * width]. *)
Theorem Bmp_out_stride (width bitsPerPixel : Z) :
  0 ≤ width * bitsPerPixel < 2 ^ 32 →
  Bmp.out_stride width bitsPerPixel mod 4 = 0 ∧
  width * bitsPerPixel / 8 ≤ Bmp.out_stride width bitsPerPixel
    < width * bitsPerPixel / 8 + 4 ∧
  (bitsPerPixel = 32 → Bmp.out_stride width bitsPerPixel = 4 * width).
Proof.
  intros Hr. unfold Bmp.out_stride, to_unsigned.
  rewrite (Z.mod_small (width * bitsPerPixel)) by lia.
  set (n := width * bitsPerPixel / 8).
  assert (Hn : 0 ≤ n < 2 ^ 29).
  { unfold n. split; [apply Z.div_pos; lia|].
    apply Z.div_lt_upper_bound; lia. }
  assert (Hal : Bmp.align_stride 3 n mod 4 = 0 ∧ n ≤ Bmp.align_stride 3 n < n + 4).
  { simpl. unfold to_unsigned.
    rewrite !(Z.mod_small (_ + 1) (2 ^ 32)) by lia.
    repeat match goal with
           | |- context [?a mod 4 =? 0] => destruct (Z.eqb_spec (a mod 4) 0)
           end; split; try lia.
    clear - n0 n1 n2. Z.div_mod_to_equations. lia. }
  split_and!; try apply Hal.
  intros ->.
  assert (n = 4 * width) as Hn4.
  { unfold n. symmetry. apply Z.div_unique_exact; lia. }
  destruct Hal as [Hm Hb]. rewrite Hn4 in *.
  revert Hm Hb. generalize (Bmp.align_stride 3 (4 * width)). intros a Hm Hb.
  Z.div_mod_to_equations. lia.
Qed.

Lemma Bmp_out_stride_witness :
  Bmp.out_stride 5 24 mod 4 = 0 ∧
  5 * 24 / 8 ≤ Bmp.out_stride 5 24 < 5 * 24 / 8 + 4 ∧
  (24 = 32 → Bmp.out_stride 5 24 = 4 * 5).
Proof. apply (Bmp_out_stride 5 24). lia. Defined.

(** The scanline loop succeeds exactly when each of its [fwrite] does, and
    then it has written the rows from the last one down. *)
Lemma write_scanlines_spec (os : Bmp.WriteEnv) (stride outStride : Z)
    (pBits : list byte) (left : nat) :
  ∀ (k : nat) (scanline : Z),
    ((Bmp.write_scanlines left k scanline stride outStride pBits os).1 = true ↔
     ∀ j, (j < left)%nat → Bmp.fwrite_ok os (k + j) = true) ∧
    ((Bmp.write_scanlines left k scanline stride outStride pBits os).1 = true →
     (Bmp.write_scanlines left k scanline stride outStride pBits os).2
       = (λ j : nat, Bmp.Scanline
                  (mem_read pBits (scanline - Z.of_nat j * stride) outStride))
         <$> seq 0 left).
Proof.
  induction left as [|left IH]; intros k scanline.
  - simpl. split; [|done]. split; [intros _ j Hj; lia|done].
  - simpl. destruct (Bmp.fwrite_ok os k) eqn:Ek; simpl.
    + specialize (IH (S k) (scanline - stride)).
      destruct (Bmp.write_scanlines left (S k) (scanline - stride) stride
                  outStride pBits os) as [ok rest]. simpl in *.
      destruct IH as [IH1 IH2]. split.
      * rewrite IH1. split.
        -- intros H j Hj. destruct j as [|j]; [by rewrite Nat.add_0_r|].
           replace (k + S j)%nat with (S (k + j)) by lia. apply H. lia.
        -- intros H j Hj. replace (S (k + j)) with (k + S j)%nat by lia.
           apply H. lia.
      * intros Hok. rewrite (IH2 Hok). f_equal.
        -- f_equal. f_equal. lia.
        -- rewrite <- fmap_S_seq, <- list_fmap_compose. apply list_fmap_ext.
           intros i j _. simpl. f_equal. f_equal. lia.
    + split; [|done]. split; [done|].
      intros H. specialize (H 0%nat ltac:(lia)). rewrite Nat.add_0_r in H. congruence.
Qed.

(** Row [i] of a mirrored buffer is row [h - 1 - i] of the buffer. *)
Lemma flip_scanlines_row (h s : nat) (img : list byte) (i : nat) :
  length img = (h * s)%nat → (i < h)%nat →
  take s (drop (i * s)
    (GDI.flip_scanlines (h / 2) (Z.of_nat s) 0 (Z.of_nat ((h - 1) * s)) img))
  = take s (drop ((h - 1 - i) * s) img).
Proof.
  intros Hlen Hi. apply list_eq. intros j.
  destruct (decide (j < s)%nat) as [Hj|Hj];
    [|by rewrite !lookup_take_ge by lia].
  rewrite !lookup_take_lt, !lookup_drop by done.
  by apply flip_scanlines_mirror.
Qed.

(** The result of [BmpWrite] as one test, and the file on success. *)
Lemma BmpWrite_shape (path bits : list byte) (width height stride bitsPerPixel : Z)
    (os : Bmp.WriteEnv) :
  let rows :=
    Bmp.write_scanlines (Z.to_nat height) 2
      (to_unsigned (stride * to_unsigned (height - 1))) stride
      (Bmp.out_stride width bitsPerPixel) bits os in
  let size := to_unsigned (Bmp.out_stride width bitsPerPixel * height) in
  Bmp.BmpWrite (Some path) width height stride bitsPerPixel (Some bits) os =
    if negb (bool_decide (path = []) || (width <? 1) || (height <? 1)
             || (stride <? to_unsigned (width * 3))
             || (negb (bitsPerPixel =? 24) && negb (bitsPerPixel =? 32)))
       && Bmp.fopen_ok os && Bmp.fwrite_ok os 0 && Bmp.fwrite_ok os 1 && rows.1
    then (true,
          Some (Bmp.FileHeader 19778 (to_unsigned (14 + 40 + size)) 54
                :: Bmp.InfoHeader 40 (to_int width) (to_int height) 1 bitsPerPixel size
                :: rows.2))
    else (false, None).
Proof.
  unfold Bmp.BmpWrite. cbv zeta.
  destruct (Bmp.write_scanlines _ _ _ _ _ _ _) as [ok rows].
  destruct (bool_decide (path = [])), (width <? 1), (height <? 1),
    (stride <? to_unsigned (width * 3)), (bitsPerPixel =? 24), (bitsPerPixel =? 32),
    (Bmp.fopen_ok os), (Bmp.fwrite_ok os 0), (Bmp.fwrite_ok os 1), ok; reflexivity.
Qed.

(** X19: [BmpWrite] returns true exactly when the path is not empty, width
    and height are at least 1, the stride is at least [width * 3], the depth
    is 24 or 32, the file opens and all [2 + height] writes succeed; a null
    path or a null pixel pointer gives false.  It leaves a file exactly when
    it returns true: a file whose writing failed is unlinked. *)
Theorem Bmp_result (path bits : list byte) (width height stride bitsPerPixel : Z)
    (os : Bmp.WriteEnv) :
  ((Bmp.BmpWrite (Some path) width height stride bitsPerPixel (Some bits) os).1 = true ↔
   is_Some (Bmp.BmpWrite (Some path) width height stride bitsPerPixel (Some bits) os).2) ∧
  ((Bmp.BmpWrite (Some path) width height stride bitsPerPixel (Some bits) os).1 = true ↔
   path ≠ [] ∧ 1 ≤ width ∧ 1 ≤ height ∧ to_unsigned (width * 3) ≤ stride ∧
   (bitsPerPixel = 24 ∨ bitsPerPixel = 32) ∧
   Bmp.fopen_ok os = true ∧
   ∀ k, (k < 2 + Z.to_nat height)%nat → Bmp.fwrite_ok os k = true) ∧
  Bmp.BmpWrite None width height stride bitsPerPixel (Some bits) os = (false, None) ∧
  Bmp.BmpWrite (Some path) width height stride bitsPerPixel None os = (false, None).
Proof.
  split_and!; try done.
  - rewrite BmpWrite_shape. cbv zeta. case_match; simpl.
    + split; [by eexists | done].
    + split; [done | by intros [? ?]].
  - rewrite BmpWrite_shape. cbv zeta.
    pose proof (write_scanlines_spec os stride (Bmp.out_stride width bitsPerPixel) bits
                  (Z.to_nat height) 2
                  (to_unsigned (stride * to_unsigned (height - 1)))) as [Hw _].
    match goal with |- (if ?b then _ else _).1 = true ↔ _ =>
      assert (Hb : (if b then (true, @None (list Bmp.chunk)) else (false, None)).1
                   = b) by (by destruct b);
      transitivity (b = true); [by destruct b|]
    end.
    rewrite !andb_true_iff, negb_true_iff, !orb_false_iff, andb_false_iff,
      !negb_false_iff, Hw.
    rewrite bool_decide_eq_false, !Z.ltb_ge, !Z.eqb_eq.
    split.
    + intros ((((((((Hp & H1) & H2) & H3) & H4) & Hf) & H0) & Hone) & Hall).
      split_and!; try done.
      intros k Hk. destruct k as [|[|k]]; try done. apply (Hall k). lia.
    + intros (Hp & H1 & H2 & H3 & H4 & Hf & Hall).
      split_and!; try done; try (apply Hall; lia).
      intros j Hj. apply (Hall (2 + j)%nat). lia.
Qed.

(** With 32 bits per pixel no padding is added. *)
Lemma out_stride_32 (width : Z) :
  0 ≤ width * 32 < 2 ^ 32 → Bmp.out_stride width 32 = 4 * width.
Proof.
  intros Hr. unfold Bmp.out_stride, to_unsigned.
  rewrite Z.mod_small by lia.
  replace (width * 32 / 8) with (4 * width) by (apply Z.div_unique_exact; lia).
  simpl. rewrite Z.mul_comm, Z.mod_mul by lia. done.
Qed.

(** The row size is never negative. *)
Lemma out_stride_nonneg (width bitsPerPixel : Z) :
  0 ≤ Bmp.out_stride width bitsPerPixel.
Proof.
  unfold Bmp.out_stride.
  assert (H0 : 0 ≤ to_unsigned (width * bitsPerPixel) / 8).
  { apply Z.div_pos; [|lia]. unfold to_unsigned.
    apply Z.mod_pos_bound. lia. }
  revert H0. generalize (to_unsigned (width * bitsPerPixel) / 8). intros n Hn.
  assert (Hu : ∀ z, 0 ≤ to_unsigned z)
    by (intros z; unfold to_unsigned; apply Z.mod_pos_bound; lia).
  simpl. repeat case_match; auto.
Qed.

(** The file of a successful [BmpWrite] whose sizes fit in 32 bits. *)
Lemma BmpWrite_rows (path bits : list byte) (width height stride bitsPerPixel : Z)
    (os : Bmp.WriteEnv) :
  path ≠ [] → 1 ≤ width < 2 ^ 31 → 1 ≤ height < 2 ^ 31 →
  to_unsigned (width * 3) ≤ stride →
  bitsPerPixel = 24 ∨ bitsPerPixel = 32 →
  stride * height < 2 ^ 32 →
  54 + Bmp.out_stride width bitsPerPixel * height < 2 ^ 32 →
  Bmp.fopen_ok os = true →
  (∀ k, (k < 2 + Z.to_nat height)%nat → Bmp.fwrite_ok os k = true) →
  Bmp.BmpWrite (Some path) width height stride bitsPerPixel (Some bits) os =
    (true,
     Some (Bmp.FileHeader 19778 (54 + Bmp.out_stride width bitsPerPixel * height) 54
           :: Bmp.InfoHeader 40 width height 1 bitsPerPixel
                (Bmp.out_stride width bitsPerPixel * height)
           :: ((λ k : nat, Bmp.Scanline
                  (mem_read bits (stride * (height - 1 - Z.of_nat k))
                     (Bmp.out_stride width bitsPerPixel)))
               <$> seq 0 (Z.to_nat height)))).
Proof.
  intros Hp Hw Hh Hst Hbpp Hsize Hfile Hopen Hall.
  rewrite BmpWrite_shape. cbv zeta.
  pose proof (write_scanlines_spec os stride (Bmp.out_stride width bitsPerPixel) bits
                (Z.to_nat height) 2
                (to_unsigned (stride * to_unsigned (height - 1)))) as [Hws Hrows].
  assert (Hok : (Bmp.write_scanlines (Z.to_nat height) 2
                   (to_unsigned (stride * to_unsigned (height - 1))) stride
                   (Bmp.out_stride width bitsPerPixel) bits os).1 = true).
  { apply Hws. intros j Hj. apply Hall. lia. }
  rewrite (Hrows Hok), Hok, Hopen, (Hall 0%nat), (Hall 1%nat) by lia.
  rewrite bool_decide_eq_false_2 by done.
  destruct (Z.ltb_spec width 1); [lia|].
  destruct (Z.ltb_spec height 1); [lia|].
  destruct (Z.ltb_spec stride (to_unsigned (width * 3))); [lia|].
  assert (Hfmt : negb (bitsPerPixel =? 24) && negb (bitsPerPixel =? 32) = false).
  { destruct Hbpp as [-> | ->]; done. }
  rewrite Hfmt. simpl.
  pose proof (out_stride_nonneg width bitsPerPixel) as Hos.
  assert (Hst0 : 0 ≤ stride).
  { pose proof (Z.mod_pos_bound (width * 3) (2 ^ 32) ltac:(lia)).
    unfold to_unsigned in Hst. lia. }
  assert (Hsm : to_unsigned (Bmp.out_stride width bitsPerPixel * height)
                = Bmp.out_stride width bitsPerPixel * height).
  { unfold to_unsigned. apply Z.mod_small. nia. }
  rewrite Hsm.
  assert (Hto : to_int width = width ∧ to_int height = height).
  { unfold to_int. rewrite !Z.mod_small by lia.
    destruct (Z.ltb_spec width (2 ^ 31)), (Z.ltb_spec height (2 ^ 31)); lia. }
  destruct Hto as [-> ->].
  assert (Hoff : to_unsigned (stride * to_unsigned (height - 1)) = stride * (height - 1)).
  { unfold to_unsigned. rewrite (Z.mod_small (height - 1)) by lia.
    apply Z.mod_small. nia. }
  rewrite Hoff.
  f_equal. f_equal. f_equal.
  - f_equal. unfold to_unsigned. rewrite Z.mod_small by nia. lia.
  - f_equal. apply list_fmap_ext. intros i k _. f_equal. f_equal. lia.
Qed.

(** X20: a successful [BmpWrite] whose sizes fit in 32 bits writes the file
    header (type BM, size 54 plus the pixel data, pixel data at offset 54),
    the info header with the width, height and depth given, and then the
    rows of the image from the last one to the first, [outStride] bytes
    each: row [k] of the file is row [height - 1 - k] of the image. *)
Theorem Bmp_file_rows (path bits : list byte) (width height stride bitsPerPixel : Z)
    (os : Bmp.WriteEnv) :
  path ≠ [] → 1 ≤ width < 2 ^ 31 → 1 ≤ height < 2 ^ 31 →
  to_unsigned (width * 3) ≤ stride →
  bitsPerPixel = 24 ∨ bitsPerPixel = 32 →
  stride * height < 2 ^ 32 →
  54 + Bmp.out_stride width bitsPerPixel * height < 2 ^ 32 →
  Bmp.fopen_ok os = true →
  (∀ k, (k < 2 + Z.to_nat height)%nat → Bmp.fwrite_ok os k = true) →
  Bmp.BmpWrite (Some path) width height stride bitsPerPixel (Some bits) os =
    (true,
     Some (Bmp.FileHeader 19778 (54 + Bmp.out_stride width bitsPerPixel * height) 54
           :: Bmp.InfoHeader 40 width height 1 bitsPerPixel
                (Bmp.out_stride width bitsPerPixel * height)
           :: ((λ k : nat, Bmp.Scanline
                  (mem_read bits (stride * (height - 1 - Z.of_nat k))
                     (Bmp.out_stride width bitsPerPixel)))
               <$> seq 0 (Z.to_nat height)))).
Proof. apply BmpWrite_rows. Qed.

Lemma Bmp_file_rows_witness :
  Bmp.BmpWrite (Some [x61]) 1 3 4 32 (Some Examples.img_1x3)
    (Bmp.mkWriteEnv true (λ _, true)) =
    (true,
     Some (Bmp.FileHeader 19778 (54 + Bmp.out_stride 1 32 * 3) 54
           :: Bmp.InfoHeader 40 1 3 1 32 (Bmp.out_stride 1 32 * 3)
           :: ((λ k : nat, Bmp.Scanline
                  (mem_read Examples.img_1x3 (4 * (3 - 1 - Z.of_nat k))
                     (Bmp.out_stride 1 32)))
               <$> seq 0 (Z.to_nat 3)))).
Proof.
  apply (Bmp_file_rows [x61] Examples.img_1x3 1 3 4 32
           (Bmp.mkWriteEnv true (λ _, true)));
    first [ done | lia | by right | by vm_compute ].
Defined.

(** X21: the capture test writes each captured frame with [BmpWrite].  For
    a GDI frame the two row reversals cancel: the rows of the file are the
    rows of the image the blit produced, in the blit's bottom-up order. *)
Theorem Bmp_after_GDI_capture (c : GDI.ScreenCaptureGDI) (img path : list byte)
    (os : Bmp.WriteEnv) :
  GDI.m_hdcMem c ≠ None → 1 ≤ GDI.m_width c < 2 ^ 27 →
  1 ≤ GDI.m_height c < 2 ^ 31 →
  GDI.m_depth c = 32 → GDI.m_stride c = 4 * GDI.m_width c →
  54 + GDI.m_height c * GDI.m_stride c < 2 ^ 32 →
  length img = Z.to_nat (GDI.m_height c * GDI.m_stride c) →
  path ≠ [] → Bmp.fopen_ok os = true →
  (∀ k, (k < 2 + Z.to_nat (GDI.m_height c))%nat → Bmp.fwrite_ok os k = true) →
  Bmp.BmpWrite (Some path)
    (GDI.GetFrameWidth (GDI.CaptureFrame c (Some img)).2)
    (GDI.GetFrameHeight (GDI.CaptureFrame c (Some img)).2)
    (GDI.GetFrameStride (GDI.CaptureFrame c (Some img)).2)
    (GDI.GetFrameDepth (GDI.CaptureFrame c (Some img)).2)
    (Some (GDI.dib_pixels (GDI.CaptureFrame c (Some img)).2)) os =
    (true,
     Some (Bmp.FileHeader 19778 (54 + GDI.m_stride c * GDI.m_height c) 54
           :: Bmp.InfoHeader 40 (GDI.m_width c) (GDI.m_height c) 1 32
                (GDI.m_stride c * GDI.m_height c)
           :: ((λ k : nat, Bmp.Scanline (GDI.scanline_at img (GDI.m_stride c) (Z.of_nat k)))
               <$> seq 0 (Z.to_nat (GDI.m_height c))))).
Proof.
  intros Hdc Hw Hh Hd Hs Hsize Hlen Hp Hopen Hall.
  assert (Hmono : GDI.m_stride c ≤ GDI.m_height c * GDI.m_stride c) by nia.
  rewrite GDI_CaptureFrame_pixels by first [ done | lia ].
  unfold GDI.GetFrameWidth, GDI.GetFrameHeight, GDI.GetFrameStride, GDI.GetFrameDepth.
  cbn [snd GDI.m_width GDI.m_height GDI.m_stride GDI.m_depth GDI.dib_pixels].
  assert (Hus : to_unsigned (GDI.m_stride c) = GDI.m_stride c).
  { unfold to_unsigned. apply Z.mod_small. lia. }
  rewrite Hus, Hd.
  pose proof (out_stride_32 (GDI.m_width c) ltac:(lia)) as Hos.
  rewrite BmpWrite_rows; try done; try lia; try (by right);
    try (rewrite Hos; lia);
    try (unfold to_unsigned; rewrite Z.mod_small by lia; lia).
  rewrite Hos, <- Hs. f_equal. f_equal. f_equal. f_equal.
  apply list_fmap_ext. intros i k Hk. f_equal.
  apply lookup_seq in Hk as [-> Hi]. rewrite Nat.add_0_l.
  unfold GDI.scanline_at, mem_read.
  set (h := Z.to_nat (GDI.m_height c)) in *.
  set (s := Z.to_nat (GDI.m_stride c)) in *.
  replace (Z.to_nat (GDI.m_stride c * (GDI.m_height c - 1 - Z.of_nat i)))
    with ((h - 1 - i) * s)%nat by (unfold h, s; nia).
  replace (Z.to_nat (GDI.m_stride c * Z.of_nat i)) with (i * s)%nat
    by (unfold s; nia).
  rewrite flip_scanlines_row by (try done; unfold h, s; nia).
  by replace (h - 1 - (h - 1 - i))%nat with i by lia.
Qed.

Lemma Bmp_after_GDI_capture_witness :
  Bmp.BmpWrite (Some [x61])
    (GDI.GetFrameWidth (GDI.CaptureFrame Examples.gdi_1x3 (Some Examples.img_1x3)).2)
    (GDI.GetFrameHeight (GDI.CaptureFrame Examples.gdi_1x3 (Some Examples.img_1x3)).2)
    (GDI.GetFrameStride (GDI.CaptureFrame Examples.gdi_1x3 (Some Examples.img_1x3)).2)
    (GDI.GetFrameDepth (GDI.CaptureFrame Examples.gdi_1x3 (Some Examples.img_1x3)).2)
    (Some (GDI.dib_pixels (GDI.CaptureFrame Examples.gdi_1x3 (Some Examples.img_1x3)).2))
    (Bmp.mkWriteEnv true (λ _, true)) =
    (true,
     Some (Bmp.FileHeader 19778 (54 + 4 * 3) 54
           :: Bmp.InfoHeader 40 1 3 1 32 (4 * 3)
           :: ((λ k : nat, Bmp.Scanline (GDI.scanline_at Examples.img_1x3 4 (Z.of_nat k)))
               <$> seq 0 (Z.to_nat 3)))).
Proof.
  apply (Bmp_after_GDI_capture Examples.gdi_1x3 Examples.img_1x3 [x61]
           (Bmp.mkWriteEnv true (λ _, true)));
    simpl; first [ done | lia ].
Defined.
